(** * Allocation HTTP endpoints of the agent (command/agent/alloc_endpoint.go)

    A shallow embedding of the handlers of [alloc_endpoint.go]:
    [AllocsRequest], [allocGet], [ClientAllocRequest], [ClientGCRequest],
    [allocRestart], [allocGC], [allocSignal], [allocSnapshot] and
    [allocStats].

    The handlers run in a small state monad over a [World]: a heap of
    allocation and job objects (Go pointers), a fresh-pointer counter and a
    trace of the calls the handler makes to its collaborators (RPCs,
    context resolution, migrate token validation, allocation filesystem,
    snappy decoding).  The collaborators themselves are fields of an
    [Agent] record, so every theorem holds for every agent.  The reading
    step of encoding/json's Decoder, which allocRestart uses on its body,
    is modelled as well ([json_read_value]). *)

From Stdlib Require Import String Ascii ZArith List Bool.
From stdpp Require Import base gmap.
Import ListNotations.

Local Open Scope Z_scope.

(** ** Errors *)

(** Kinds of error a backend RPC may report. *)
Inductive rpc_err_kind :=
| NoNodeConn            (** structs.ErrNoNodeConn: no path to the node *)
| UnknownAllocation     (** structs.ErrUnknownAllocation *)
| OtherRPCErr.

(** Go [error] values met by the handlers. *)
Inductive error :=
| CodedError (code : Z) (msg : string)   (** HTTPCodedError built by CodedError *)
| RPCError (kind : rpc_err_kind) (msg : string)
| ErrPermissionDenied                    (** structs.ErrPermissionDenied *)
| ErrGeneric (msg : string).             (** fmt.Errorf, errors.New, io.EOF, ... *)

(** [err.Error()] *)
Definition Error (e : error) : string :=
  match e with
  | CodedError _ m => m
  | RPCError _ m => m
  | ErrPermissionDenied => "Permission denied"
  | ErrGeneric m => m
  end.

(** Modelled from the spec: structs.IsErrNoNodeConn (the structs package is
    not in the sources); it recognises the backend condition "no connection
    to target node" by the structure of the error. *)
Definition IsErrNoNodeConn (e : error) : bool :=
  match e with RPCError NoNodeConn _ => true | _ => false end.

(** Modelled from the spec: structs.IsErrUnknownAllocation (not in the
    sources); it recognises "allocation unknown to target" structurally. *)
Definition IsErrUnknownAllocation (e : error) : bool :=
  match e with RPCError UnknownAllocation _ => true | _ => false end.

(** Modelled from the spec: the HTTP boundary (the [wrap] of the HTTP
    server, not in the sources) gives a coded error its code, a permission
    failure 403 and treats every other error as Internal (500). *)
Definition http_status (e : error) : Z :=
  match e with
  | CodedError c _ => c
  | ErrPermissionDenied => 403
  | _ => 500
  end.

Definition ErrInvalidMethod : string := "Invalid method".
Definition allocNotFoundErr : string := "allocation not found".
Definition resourceNotFoundErr : string := "resource not found".
Definition noRouteErr : string := "No local Node and node_id not provided".

(** ** Data model *)

Record TaskEvent := mkTaskEvent {
  te_Type : string;
  te_DisplayMessage : string
}.

(** structs.Job, reduced to the field the handlers touch. *)
Record Job := mkJob { Payload : list Byte.byte }.

(** structs.Allocation; [Job] is a pointer into the job heap (nil = None);
    the task states are flattened to their events. *)
Record Allocation := mkAllocation {
  alloc_ID : string;
  alloc_Job : option positive;
  alloc_Events : list TaskEvent
}.

(** structs.AllocListStub *)
Record AllocListStub := mkAllocListStub {
  stub_ID : string;
  stub_Events : list TaskEvent
}.

#[global] Instance Allocation_inhabited : Inhabited Allocation :=
  populate (mkAllocation EmptyString None []).
#[global] Instance Job_inhabited : Inhabited Job := populate (mkJob []).

(** An HTTP request: method, path, query string, body. *)
Record Request := mkRequest {
  Method : string;
  Path : string;
  Query : list (string * string);
  Body : string
}.

(** [req.URL.Query().Get(k)]: first value, or EmptyString *)
Fixpoint query_get (q : list (string * string)) (k : string) : string :=
  match q with
  | [] => EmptyString
  | (k', v) :: q' => if String.eqb k k' then v else query_get q' k
  end.

(** RPC request structs. *)
Record AllocRestartRequest := mkRestartReq { rr_AllocID : string; rr_TaskName : string }.
Record AllocSignalRequest := mkSignalReq {
  sr_AllocID : string; sr_Task : string; sr_Signal : string }.

Inductive rpc_args :=
| ArgsAllocList
| ArgsAllocSpecific (AllocID : string)
| ArgsAllocStop (AllocID : string)
| ArgsNodeSpecific (NodeID : string)
| ArgsRestart (r : AllocRestartRequest)
| ArgsSignal (r : AllocSignalRequest)
| ArgsStats (AllocID Task : string).

(** The allocation a request names, if any. *)
Definition args_AllocID (a : rpc_args) : option string :=
  match a with
  | ArgsAllocSpecific id => Some id
  | ArgsAllocStop id => Some id
  | ArgsRestart r => Some (rr_AllocID r)
  | ArgsSignal r => Some (sr_AllocID r)
  | ArgsStats id _ => Some id
  | _ => None
  end.

(** RPC replies. *)
Inductive rpc_reply :=
| GenericResponse
| AllocStatsResponse (Stats : option string)
| AllocListResponse (Allocations : option (list AllocListStub))
| SingleAllocResponse (Alloc : option positive).

(** Which transport an RPC goes through: [s.agent.RPC], the local client's
    [ClientRPC], the client's [RPC] to servers, or the server's [RPC]. *)
Inductive transport := AgentRPC | LocalClientRPC | ClientRPC | ServerRPC.

(** Calls to collaborators, in the order the handler makes them. *)
Inductive event :=
| EvRPC (t : transport) (method : string) (args : rpc_args)
| EvResolveAlloc (allocID : string)
| EvResolveNode (nodeID : string)
| EvValidateMigrateToken (allocID secret : string)
| EvGetAllocFS (allocID : string)
| EvSnapshot
| EvSnappyDecode.

Definition is_rpc (ev : event) : bool :=
  match ev with EvRPC _ _ _ => true | _ => false end.

(** The agent and the collaborators the handlers call. *)
Record Agent := mkAgent {
  parse : Request -> bool;                     (** s.parse: true if it wrote a response *)
  parseToken : Request -> string;              (** s.parseToken *)
  client_running : bool;                       (** s.agent.client != nil *)
  clientNotRunning : error;
  rpcHandlerForAlloc : string -> bool * bool * bool;
  rpcHandlerForNode : string -> bool * bool * bool;
  rpc_call : transport -> string -> rpc_args -> error + rpc_reply;
  decode_restart_body : string -> error + string;   (** json decode into struct{TaskName string} *)
  decode_signal_body : string -> error + AllocSignalRequest; (** decodeBody into a zero AllocSignalRequest *)
  ValidateMigrateToken : string -> string -> bool;
  GetAllocFS : string -> error + nat;          (** handle of the allocation directory *)
  Snapshot : nat -> option error;              (** allocFS.Snapshot(resp) *)
  snappy_Decode : list Byte.byte -> error + list Byte.byte;
  PopulateEventDisplayMessage : TaskEvent -> TaskEvent
}.

(** ** The state monad *)

Record World := mkWorld {
  allocs : gmap positive Allocation;
  jobs : gmap positive Job;
  next_ptr : positive;
  trace : list event
}.

Definition M (A : Type) : Type := World -> A * World.

Definition ret {A} (x : A) : M A := fun w => (x, w).
Definition bind {A B} (m : M A) (k : A -> M B) : M B :=
  fun w => let (x, w') := m w in k x w'.

Notation "x <- m ;; k" := (bind m (fun x => k))
  (at level 100, m at next level, right associativity).

(** [w] with [ev] appended to its trace. *)
Definition logged (w : World) (ev : event) : World :=
  mkWorld (allocs w) (jobs w) (next_ptr w) (trace w ++ [ev]).

Definition emit (ev : event) : M unit := fun w => (tt, logged w ev).

Definition load_alloc (p : positive) : M Allocation :=
  fun w => (allocs w !!! p, w).
Definition store_alloc (p : positive) (a : Allocation) : M unit :=
  fun w => (tt, mkWorld (<[p := a]> (allocs w)) (jobs w) (next_ptr w) (trace w)).
Definition load_job (p : positive) : M Job :=
  fun w => (jobs w !!! p, w).
Definition store_job (p : positive) (j : Job) : M unit :=
  fun w => (tt, mkWorld (allocs w) (<[p := j]> (jobs w)) (next_ptr w) (trace w)).
Definition fresh : M positive :=
  fun w => (next_ptr w, mkWorld (allocs w) (jobs w) (Pos.succ (next_ptr w)) (trace w)).

Local Open Scope string_scope.

(** ** Handlers *)

Section Handlers.

Variable s : Agent.

(** A call through a transport: recorded in the trace, answered by the agent. *)
Definition rpc (t : transport) (method : string) (args : rpc_args)
  : M (error + rpc_reply) :=
  _ <- emit (EvRPC t method args) ;;
  ret (rpc_call s t method args).

Definition resolveAlloc (allocID : string) : M (bool * bool * bool) :=
  _ <- emit (EvResolveAlloc allocID) ;;
  ret (rpcHandlerForAlloc s allocID).

Definition resolveNode (nodeID : string) : M (bool * bool * bool) :=
  _ <- emit (EvResolveNode nodeID) ;;
  ret (rpcHandlerForNode s nodeID).

(** The chain [if useLocalClient ... else if useClientRPC ... else if
    useServerRPC ...] shared by the client-side verbs: the transport and
    the method name used for the operation [op], or None for the final
    [else]. *)
Definition route (h : bool * bool * bool) (op : string)
  : option (transport * string) :=
  let '(useLocalClient, useClientRPC, useServerRPC) := h in
  if useLocalClient then Some (LocalClientRPC, "Allocations." ++ op)
  else if useClientRPC then Some (ClientRPC, "ClientAllocations." ++ op)
  else if useServerRPC then Some (ServerRPC, "ClientAllocations." ++ op)
  else None.

(** Make the RPC; [rpcErr = CodedError(400, ...)] when no handler is found. *)
Definition dispatch (h : bool * bool * bool) (op : string) (args : rpc_args)
  : M (error + rpc_reply) :=
  match route h op with
  | Some (t, method) => rpc t method args
  | None => ret (inl (CodedError 400 noRouteErr))
  end.

(** [if IsErrNoNodeConn(rpcErr) || IsErrUnknownAllocation(rpcErr)] of the
    allocation-scoped verbs. *)
Definition normalize_alloc_err (r : error + rpc_reply) : error + rpc_reply :=
  match r with
  | inl e => if IsErrNoNodeConn e || IsErrUnknownAllocation e
             then inl (CodedError 404 (Error e)) else inl e
  | inr x => inr x
  end.

(** [if IsErrNoNodeConn(rpcErr)] of ClientGCRequest. *)
Definition normalize_node_err (r : error + rpc_reply) : error + rpc_reply :=
  match r with
  | inl e => if IsErrNoNodeConn e then inl (CodedError 404 (Error e)) else inl e
  | inr x => inr x
  end.

(** [alloc.SetEventDisplayMessages()] *)
Definition SetEventDisplayMessages (a : Allocation) : Allocation :=
  mkAllocation (alloc_ID a) (alloc_Job a)
    (map (PopulateEventDisplayMessage s) (alloc_Events a)).

Definition SetEventDisplayMessagesStub (a : AllocListStub) : AllocListStub :=
  mkAllocListStub (stub_ID a) (map (PopulateEventDisplayMessage s) (stub_Events a)).

(** AllocsRequest.  The result [None] is Go's nil. *)
Definition AllocsRequest (req : Request)
  : M (error + option (list AllocListStub)) :=
  if negb (String.eqb (Method req) "GET") then ret (inl (CodedError 405 ErrInvalidMethod))
  else if parse s req then ret (inr None)
  else
    r <- rpc AgentRPC "Alloc.List" ArgsAllocList ;;
    match r with
    | inl err => ret (inl err)
    | inr out =>
        let outAllocations :=
          match out with AllocListResponse a => a | _ => None end in
        let outAllocations :=
          match outAllocations with None => Some [] | Some l => Some l end in
        ret (inr (option_map (map SetEventDisplayMessagesStub) outAllocations))
    end.

(** Modelled from the spec: structs.Allocation.Copy (not in the sources);
    the decompressed payload is applied to a copy, so the copy owns a copy
    of the job and the original allocation is never mutated. *)
Definition alloc_Copy (p : positive) : M positive :=
  a <- load_alloc p ;;
  nj <- match alloc_Job a with
        | None => ret None
        | Some jp =>
            j <- load_job jp ;;
            jp' <- fresh ;;
            _ <- store_job jp' j ;;
            ret (Some jp')
        end ;;
  p' <- fresh ;;
  _ <- store_alloc p' (mkAllocation (alloc_ID a) nj (alloc_Events a)) ;;
  ret p'.

(** allocGet; the result is a pointer to the returned allocation. *)
Definition allocGet (allocID : string) (req : Request) : M (error + option positive) :=
  if negb (String.eqb (Method req) "GET") then ret (inl (CodedError 405 ErrInvalidMethod))
  else if parse s req then ret (inr None)
  else
    r <- rpc AgentRPC "Alloc.GetAlloc" (ArgsAllocSpecific allocID) ;;
    match r with
    | inl err => ret (inl err)
    | inr out =>
        match (match out with SingleAllocResponse a => a | _ => None end) with
        | None => ret (inl (CodedError 404 "alloc not found"))
        | Some p =>
            (* Decode the payload if there is any *)
            a <- load_alloc p ;;
            payload <- match alloc_Job a with
                       | None => ret []
                       | Some jp => j <- load_job jp ;; ret (Payload j)
                       end ;;
            dec <- (if negb (bool_decide (alloc_Job a = None)) && negb (bool_decide (payload = []))
                    then _ <- emit EvSnappyDecode ;;
                         match snappy_Decode s payload with
                         | inl err => ret (inl err)
                         | inr decoded =>
                             p' <- alloc_Copy p ;;
                             a' <- load_alloc p' ;;
                             _ <- match alloc_Job a' with
                                  | Some jp' => store_job jp' (mkJob decoded)
                                  | None => ret tt
                                  end ;;
                             ret (inr p')
                         end
                    else ret (inr p)) ;;
            match dec with
            | inl err => ret (inl err)
            | inr p' =>
                a' <- load_alloc p' ;;
                _ <- store_alloc p' (SetEventDisplayMessages a') ;;
                ret (inr (Some p'))
            end
        end
    end.

(** ClientGCRequest *)
Definition ClientGCRequest (req : Request) : M (error + unit) :=
  (* Get the requested Node ID *)
  let requestedNode := query_get (Query req) "node_id" in
  let args := ArgsNodeSpecific requestedNode in
  let _ := parse s req in
  (* Determine the handler to use *)
  h <- resolveNode requestedNode ;;
  (* Make the RPC *)
  r <- dispatch h "GarbageCollectAll" args ;;
  match normalize_node_err r with
  | inl rpcErr => ret (inl rpcErr)
  | inr _ => ret (inr tt)
  end.

(** allocRestart; the body is decoded into a struct holding only TaskName. *)
Definition allocRestart (allocID : string) (req : Request) : M (error + rpc_reply) :=
  let _ := parse s req in
  (* Explicitly parse the body separately to disallow overriding AllocID in req Body. *)
  match decode_restart_body s (Body req) with
  | inl err => ret (inl err)
  | inr reqBodyTaskName =>
      let args := mkRestartReq allocID
                    (if negb (String.eqb reqBodyTaskName EmptyString) then reqBodyTaskName else EmptyString) in
      h <- resolveAlloc allocID ;;
      r <- dispatch h "Restart" (ArgsRestart args) ;;
      ret (normalize_alloc_err r)
  end.

(** allocGC *)
Definition allocGC (allocID : string) (req : Request) : M (error + unit) :=
  let args := ArgsAllocSpecific allocID in
  let _ := parse s req in
  h <- resolveAlloc allocID ;;
  r <- dispatch h "GarbageCollect" args ;;
  match normalize_alloc_err r with
  | inl rpcErr => ret (inl rpcErr)
  | inr _ => ret (inr tt)
  end.

(** allocSignal; the body is decoded into the whole request, then
    [args.AllocID = allocID]. *)
Definition allocSignal (allocID : string) (req : Request) : M (error + rpc_reply) :=
  if negb (String.eqb (Method req) "POST" || String.eqb (Method req) "PUT")
  then ret (inl (CodedError 405 ErrInvalidMethod))
  else
    match decode_signal_body s (Body req) with
    | inl err => ret (inl (CodedError 400 ("Failed to decode body: " ++ Error err)))
    | inr args =>
        let _ := parse s req in
        let args := mkSignalReq allocID (sr_Task args) (sr_Signal args) in
        h <- resolveAlloc allocID ;;
        r <- dispatch h "Signal" (ArgsSignal args) ;;
        ret (normalize_alloc_err r)
    end.

(** allocSnapshot *)
Definition allocSnapshot (allocID : string) (req : Request) : M (error + unit) :=
  let secret := parseToken s req in
  _ <- emit (EvValidateMigrateToken allocID secret) ;;
  if negb (ValidateMigrateToken s allocID secret) then ret (inl ErrPermissionDenied)
  else
    _ <- emit (EvGetAllocFS allocID) ;;
    match GetAllocFS s allocID with
    | inl _ => ret (inl (ErrGeneric allocNotFoundErr))
    | inr allocFS =>
        _ <- emit EvSnapshot ;;
        match Snapshot s allocFS with
        | Some err => ret (inl (ErrGeneric ("error making snapshot: " ++ Error err)))
        | None => ret (inr tt)
        end
    end.

(** allocStats; the result is [reply.Stats]. *)
Definition allocStats (allocID : string) (req : Request) : M (error + option string) :=
  let task := query_get (Query req) "task" in
  let args := ArgsStats allocID task in
  let _ := parse s req in
  h <- resolveAlloc allocID ;;
  r <- dispatch h "Stats" args ;;
  match normalize_alloc_err r with
  | inl rpcErr => ret (inl rpcErr)
  | inr reply => ret (inr (match reply with AllocStatsResponse st => st | _ => None end))
  end.

(** allocStop; [&out] and [err] are returned together, the boundary
    keeps only [err] when it is not nil. *)
Definition allocStop (allocID : string) (req : Request) : M (error + rpc_reply) :=
  if negb (String.eqb (Method req) "POST" || String.eqb (Method req) "PUT")
  then ret (inl (CodedError 405 ErrInvalidMethod))
  else
    let sr := ArgsAllocStop allocID in
    (* s.parseWriteRequest only fills the write options *)
    rpc AgentRPC "Alloc.Stop" sr.

End Handlers.

(** ** Routing of /v1/client/allocation/ *)

(** strings.TrimPrefix *)
Definition TrimPrefix (str pre : string) : string :=
  if String.prefix pre str
  then substring (String.length pre) (String.length str - String.length pre) str
  else str.

(** strings.Split on a one-character separator *)
Fixpoint Split (sep : ascii) (str : string) : list string :=
  match str with
  | EmptyString => [EmptyString]
  | String c rest =>
      let parts := Split sep rest in
      if Ascii.eqb c sep then EmptyString :: parts
      else match parts with
           | [] => [String c EmptyString]
           | p :: ps => String c p :: ps
           end
  end.

(** [!strings.ContainsRune(str, sep)] *)
Fixpoint no_char (sep : ascii) (str : string) : bool :=
  match str with
  | EmptyString => true
  | String c rest => negb (Ascii.eqb c sep) && no_char sep rest
  end.

(** Results of the handlers dispatched from ClientAllocRequest. *)
Inductive client_result :=
| ResStats (st : option string)
| ResReply (r : rpc_reply)
| ResNone.

Definition lift {A} (f : A -> client_result) (m : M (error + A)) : M (error + client_result) :=
  r <- m ;;
  ret (match r with inl e => inl e | inr x => inr (f x) end).

(** Results of the handlers dispatched from AllocSpecificRequest. *)
Inductive alloc_result :=
| ResAlloc (p : option positive)
| ResStop (r : rpc_reply).

Definition lift' {A} (f : A -> alloc_result) (m : M (error + A)) : M (error + alloc_result) :=
  r <- m ;;
  ret (match r with inl e => inl e | inr x => inr (f x) end).

(** ClientAllocRequest *)
Definition ClientAllocRequest (s : Agent) (req : Request) : M (error + client_result) :=
  let reqSuffix := TrimPrefix (Path req) "/v1/client/allocation/" in
  let tokens := Split "/"%char reqSuffix in
  match tokens with
  | [allocID; action] =>
      if String.eqb action "stats" then lift ResStats (allocStats s allocID req)
      else if String.eqb action "snapshot" then
        if negb (client_running s) then ret (inl (clientNotRunning s))
        else lift (fun _ => ResNone) (allocSnapshot s allocID req)
      else if String.eqb action "restart" then lift ResReply (allocRestart s allocID req)
      else if String.eqb action "gc" then lift (fun _ => ResNone) (allocGC s allocID req)
      else if String.eqb action "signal" then lift ResReply (allocSignal s allocID req)
      else ret (inl (CodedError 404 resourceNotFoundErr))
  | _ => ret (inl (CodedError 404 resourceNotFoundErr))
  end.

(** AllocSpecificRequest *)
Definition AllocSpecificRequest (s : Agent) (req : Request) : M (error + alloc_result) :=
  let reqSuffix := TrimPrefix (Path req) "/v1/allocation/" in
  (* tokenize the suffix of the path to get the alloc id and find the action
     invoked on the alloc id *)
  let tokens := Split "/"%char reqSuffix in
  if (2 <? length tokens)%nat || (length tokens <? 1)%nat
  then ret (inl (CodedError 404 resourceNotFoundErr))
  else
    match tokens with
    | [allocID] => lift' ResAlloc (allocGet s allocID req)
    | allocID :: action :: _ =>
        if String.eqb action "stop" then lift' ResStop (allocStop s allocID req)
        else ret (inl (CodedError 404 resourceNotFoundErr))
    | [] => ret (inl (CodedError 404 resourceNotFoundErr))
    end.

(** ** The body decoder of allocRestart: encoding/json's Decoder.Decode

    [json.NewDecoder(req.Body).Decode(&reqBody)] first reads one JSON value
    from the body (Decoder.readValue, driven by the scanner of scanner.go)
    and then unmarshals that value into the struct.  The reader skips
    leading white space, reports io.EOF on a body of white space only,
    io.ErrUnexpectedEOF when the body ends inside the value, and a
    SyntaxError at the first byte the scanner rejects.  It stops at the end
    of the first value: the bytes after it are not read.  The unmarshal step
    is a parameter ([unmarshal] below). *)

#[local] Set Warnings "-register-all".

Inductive json :=
| JNull
| JBool (b : bool)
| JNumber (lit : string)
| JString (raw : string)                       (** contents, escapes kept *)
| JArray (elems : list json)
| JObject (members : list (string * json)).

Inductive json_error :=
| JEOF                                         (** io.EOF *)
| JUnexpectedEOF                               (** io.ErrUnexpectedEOF *)
| JSyntax (c : ascii) (context : string).      (** *SyntaxError *)

(** The error value Decode returns; the offending character is shown as
    quoteChar shows a printable ASCII character. *)
Definition json_error_to_error (e : json_error) : error :=
  match e with
  | JEOF => ErrGeneric "EOF"
  | JUnexpectedEOF => ErrGeneric "unexpected EOF"
  | JSyntax c ctx =>
      ErrGeneric ("invalid character '" ++ String c EmptyString ++ "' " ++ ctx)
  end.

Definition dquote : ascii := ascii_of_nat 34.
Definition backslash : ascii := ascii_of_nat 92.

(** isSpace *)
Definition is_space (c : ascii) : bool :=
  Ascii.eqb c " " || Ascii.eqb c (ascii_of_nat 9)
  || Ascii.eqb c (ascii_of_nat 10) || Ascii.eqb c (ascii_of_nat 13).

Fixpoint skip_space (b : string) : string :=
  match b with
  | String c r => if is_space c then skip_space r else b
  | EmptyString => EmptyString
  end.

Fixpoint all_space (b : string) : bool :=
  match b with
  | String c r => is_space c && all_space r
  | EmptyString => true
  end.

Definition is_digit (c : ascii) : bool :=
  (48 <=? nat_of_ascii c)%nat && (nat_of_ascii c <=? 57)%nat.

Definition is_hex (c : ascii) : bool :=
  is_digit c
  || ((97 <=? nat_of_ascii c)%nat && (nat_of_ascii c <=? 102)%nat)
  || ((65 <=? nat_of_ascii c)%nat && (nat_of_ascii c <=? 70)%nat).

(** the characters stateBeginValue accepts *)
Definition starts_value (c : ascii) : bool :=
  Ascii.eqb c "{" || Ascii.eqb c "[" || Ascii.eqb c dquote || Ascii.eqb c "-"
  || is_digit c || Ascii.eqb c "t" || Ascii.eqb c "f" || Ascii.eqb c "n".

(** *** Numbers: state0, state1, stateDot, stateDot0, stateE, stateESign, stateE0 *)

Fixpoint scan_digits (b : string) : string * string :=
  match b with
  | String c r =>
      if is_digit c then let (d, r') := scan_digits r in (String c d, r')
      else (EmptyString, b)
  | EmptyString => (EmptyString, EmptyString)
  end.

Definition scan_exp (b : string) : json_error + (string * string) :=
  match b with
  | String e r =>
      if Ascii.eqb e "e" || Ascii.eqb e "E" then
        let (sgn, r1) :=
          match r with
          | String c r' =>
              if Ascii.eqb c "+" || Ascii.eqb c "-"
              then (String c EmptyString, r') else (EmptyString, r)
          | EmptyString => (EmptyString, r)
          end in
        match r1 with
        | EmptyString => inl JUnexpectedEOF
        | String d _ =>
            if is_digit d then
              let (ds, r2) := scan_digits r1 in inr (String e (sgn ++ ds), r2)
            else inl (JSyntax d "in exponent of numeric literal")
        end
      else inr (EmptyString, b)
  | EmptyString => inr (EmptyString, EmptyString)
  end.

Definition scan_frac (b : string) : json_error + (string * string) :=
  match b with
  | String dot r =>
      if Ascii.eqb dot "." then
        match r with
        | EmptyString => inl JUnexpectedEOF
        | String d _ =>
            if is_digit d then
              let (ds, r1) := scan_digits r in
              match scan_exp r1 with
              | inl e => inl e
              | inr (ex, r2) => inr (String dot (ds ++ ex), r2)
              end
            else inl (JSyntax d "after decimal point in numeric literal")
        end
      else scan_exp b
  | EmptyString => inr (EmptyString, EmptyString)
  end.

(** the number after its optional sign *)
Definition scan_unsigned (b : string) : json_error + (string * string) :=
  match b with
  | EmptyString => inl JUnexpectedEOF
  | String d r =>
      if Ascii.eqb d "0" then
        match scan_frac r with
        | inl e => inl e
        | inr (t, r') => inr (String d t, r')
        end
      else if is_digit d then
        let (ds, r1) := scan_digits r in
        match scan_frac r1 with
        | inl e => inl e
        | inr (t, r') => inr (String d (ds ++ t), r')
        end
      else inl (JSyntax d "in numeric literal")
  end.

Definition scan_number (b : string) : json_error + (string * string) :=
  match b with
  | String m r =>
      if Ascii.eqb m "-" then
        match scan_unsigned r with
        | inl e => inl e
        | inr (t, r') => inr (String m t, r')
        end
      else scan_unsigned b
  | EmptyString => inl JUnexpectedEOF
  end.

(** *** Literals: stateT, stateTr, ..., stateNul *)

(** [expected] is what is left of the literal [name] after its first byte. *)
Fixpoint scan_literal (name expected b : string) : json_error + string :=
  match expected with
  | EmptyString => inr b
  | String e es =>
      match b with
      | EmptyString => inl JUnexpectedEOF
      | String c r =>
          if Ascii.eqb c e then scan_literal name es r
          else inl (JSyntax c ("in literal " ++ name ++ " (expecting '"
                                 ++ String e EmptyString ++ "')"))
      end
  end.

(** *** Strings: stateInString, stateInStringEsc, stateInStringEscU... *)

Inductive str_state := SIn | SEsc | SHex (n : nat).

Definition is_escape (c : ascii) : bool :=
  Ascii.eqb c "b" || Ascii.eqb c "f" || Ascii.eqb c "n" || Ascii.eqb c "r"
  || Ascii.eqb c "t" || Ascii.eqb c backslash || Ascii.eqb c "/"
  || Ascii.eqb c dquote.

Definition cons_raw (c : ascii) (res : json_error + (string * string))
  : json_error + (string * string) :=
  match res with
  | inl e => inl e
  | inr (s, rest) => inr (String c s, rest)
  end.

(** the string after its opening quote: its raw contents and the rest *)
Fixpoint scan_string (st : str_state) (b : string) : json_error + (string * string) :=
  match b with
  | EmptyString => inl JUnexpectedEOF
  | String c r =>
      match st with
      | SIn =>
          if Ascii.eqb c dquote then inr (EmptyString, r)
          else if Ascii.eqb c backslash then cons_raw c (scan_string SEsc r)
          else if (nat_of_ascii c <? 32)%nat then inl (JSyntax c "in string literal")
          else cons_raw c (scan_string SIn r)
      | SEsc =>
          if is_escape c then cons_raw c (scan_string SIn r)
          else if Ascii.eqb c "u" then cons_raw c (scan_string (SHex 4) r)
          else inl (JSyntax c "in string escape code")
      | SHex n =>
          if is_hex c then
            cons_raw c (scan_string (match n with S (S m) => SHex (S m) | _ => SIn end) r)
          else inl (JSyntax c "in \u hexadecimal character escape")
      end
  end.

(** *** Values, objects and arrays *)

(** maxNestingDepth *)
Definition maxNestingDepth : N := 10000.

(** [fuel] bounds the nesting of the calls; each call consumes at least one
    byte, so the length of the body plus one is enough. *)
Fixpoint scan_value (fuel : nat) (depth : N) (b : string) {struct fuel}
  : json_error + (json * string) :=
  match fuel with
  | O => inl JUnexpectedEOF
  | S f =>
      match skip_space b with
      | EmptyString => inl JUnexpectedEOF
      | String c r =>
          if Ascii.eqb c "{" then
            if (maxNestingDepth <? N.succ depth)%N then inl (JSyntax c "exceeded max depth")
            else match skip_space r with
                 | EmptyString => inl JUnexpectedEOF
                 | String c' r' =>
                     if Ascii.eqb c' "}" then inr (JObject [], r')
                     else scan_members f (N.succ depth) [] (String c' r')
                 end
          else if Ascii.eqb c "[" then
            if (maxNestingDepth <? N.succ depth)%N then inl (JSyntax c "exceeded max depth")
            else match skip_space r with
                 | EmptyString => inl JUnexpectedEOF
                 | String c' r' =>
                     if Ascii.eqb c' "]" then inr (JArray [], r')
                     else scan_elems f (N.succ depth) [] (String c' r')
                 end
          else if Ascii.eqb c dquote then
            match scan_string SIn r with
            | inl e => inl e
            | inr (s, r') => inr (JString s, r')
            end
          else if Ascii.eqb c "-" || is_digit c then
            match scan_number (String c r) with
            | inl e => inl e
            | inr (lit, r') => inr (JNumber lit, r')
            end
          else if Ascii.eqb c "t" then
            match scan_literal "true" "rue" r with
            | inl e => inl e | inr r' => inr (JBool true, r') end
          else if Ascii.eqb c "f" then
            match scan_literal "false" "alse" r with
            | inl e => inl e | inr r' => inr (JBool false, r') end
          else if Ascii.eqb c "n" then
            match scan_literal "null" "ull" r with
            | inl e => inl e | inr r' => inr (JNull, r') end
          else inl (JSyntax c "looking for beginning of value")
      end
  end
with scan_members (fuel : nat) (depth : N) (acc : list (string * json)) (b : string)
  {struct fuel} : json_error + (json * string) :=
  match fuel with
  | O => inl JUnexpectedEOF
  | S f =>
      match skip_space b with
      | EmptyString => inl JUnexpectedEOF
      | String c r =>
          if Ascii.eqb c dquote then
            match scan_string SIn r with
            | inl e => inl e
            | inr (key, r1) =>
                match skip_space r1 with
                | EmptyString => inl JUnexpectedEOF
                | String c1 r2 =>
                    if Ascii.eqb c1 ":" then
                      match scan_value f depth r2 with
                      | inl e => inl e
                      | inr (v, r3) =>
                          match skip_space r3 with
                          | EmptyString => inl JUnexpectedEOF
                          | String c3 r4 =>
                              if Ascii.eqb c3 "," then scan_members f depth ((key, v) :: acc) r4
                              else if Ascii.eqb c3 "}" then inr (JObject (rev ((key, v) :: acc)), r4)
                              else inl (JSyntax c3 "after object key:value pair")
                          end
                      end
                    else inl (JSyntax c1 "after object key")
                end
            end
          else inl (JSyntax c "looking for beginning of object key string")
      end
  end
with scan_elems (fuel : nat) (depth : N) (acc : list json) (b : string)
  {struct fuel} : json_error + (json * string) :=
  match fuel with
  | O => inl JUnexpectedEOF
  | S f =>
      match scan_value f depth b with
      | inl e => inl e
      | inr (v, r) =>
          match skip_space r with
          | EmptyString => inl JUnexpectedEOF
          | String c r' =>
              if Ascii.eqb c "," then scan_elems f depth (v :: acc) r'
              else if Ascii.eqb c "]" then inr (JArray (rev (v :: acc)), r')
              else inl (JSyntax c "after array element")
          end
      end
  end.

(** Decoder.readValue on a fresh decoder: the first value and the bytes
    after it, which the decoder leaves unread. *)
Definition json_read_value (b : string) : json_error + (json * string) :=
  match skip_space b with
  | EmptyString => inl JEOF
  | _ => scan_value (S (String.length b)) 0%N b
  end.

(** Decoder.Decode: read the first value, then unmarshal it. *)
Definition json_Decode {A} (unmarshal : json -> error + A) (b : string) : error + A :=
  match json_read_value b with
  | inl e => inl (json_error_to_error e)
  | inr (v, _) => unmarshal v
  end.

(** json.Valid: the body is exactly one value, with white space around it. *)
Definition json_valid (b : string) : bool :=
  match json_read_value b with
  | inl _ => false
  | inr (_, rest) => all_space rest
  end.

(** ** Concrete agents, for the tests and witnesses *)

Module Demo.

Definition restart_decoder (b : string) : error + string :=
  if String.eqb b EmptyString then inl (ErrGeneric "EOF")
  else if String.eqb b "{}" then inr EmptyString
  else if String.prefix "{" b then inr "web"
  else inl (ErrGeneric "invalid character looking for beginning of value").

Definition signal_decoder (b : string) : error + AllocSignalRequest :=
  if String.eqb b EmptyString then inl (ErrGeneric "EOF")
  else inr (mkSignalReq "other-alloc" "web" "SIGHUP").

Definition populate_display (e : TaskEvent) : TaskEvent :=
  if String.eqb (te_DisplayMessage e) EmptyString then mkTaskEvent (te_Type e) (te_Type e) else e.

Definition agent (h : bool * bool * bool)
    (rpcf : transport -> string -> rpc_args -> error + rpc_reply)
    (valid : bool) : Agent :=
  mkAgent (fun _ => false) (fun r => query_get (Query r) "token") true
    (CodedError 400 "node is not running a Nomad Client")
    (fun _ => h) (fun _ => h) rpcf restart_decoder signal_decoder
    (fun _ _ => valid) (fun _ => inr 0%nat) (fun _ => None)
    (fun b => inr (app b b)) populate_display.

Definition ok_rpc (t : transport) (m : string) (a : rpc_args) : error + rpc_reply :=
  inr GenericResponse.

Definition err_rpc (e : error) (t : transport) (m : string) (a : rpc_args)
  : error + rpc_reply := inl e.

Definition get_rpc (t : transport) (m : string) (a : rpc_args) : error + rpc_reply :=
  inr (SingleAllocResponse (Some 1%positive)).

Definition list_rpc (t : transport) (m : string) (a : rpc_args) : error + rpc_reply :=
  inr (AllocListResponse None).

(** The agent [s] whose allocation directory cannot be found. *)
Definition without_alloc_fs (s : Agent) : Agent :=
  mkAgent (parse s) (parseToken s) (client_running s) (clientNotRunning s)
    (rpcHandlerForAlloc s) (rpcHandlerForNode s) (rpc_call s)
    (decode_restart_body s) (decode_signal_body s) (ValidateMigrateToken s)
    (fun _ => inl (ErrGeneric "no such file or directory")) (Snapshot s)
    (snappy_Decode s) (PopulateEventDisplayMessage s).

(** The agent [s] whose snappy decoder rejects every payload. *)
Definition without_snappy (s : Agent) : Agent :=
  mkAgent (parse s) (parseToken s) (client_running s) (clientNotRunning s)
    (rpcHandlerForAlloc s) (rpcHandlerForNode s) (rpc_call s)
    (decode_restart_body s) (decode_signal_body s) (ValidateMigrateToken s)
    (GetAllocFS s) (Snapshot s)
    (fun _ => inl (ErrGeneric "snappy: corrupt input")) (PopulateEventDisplayMessage s).

Definition w0 : World := mkWorld ∅ ∅ 1 [].

Definition ev_start : TaskEvent := mkTaskEvent "Started" EmptyString.

(** An allocation (pointer 1) whose job (pointer 2) has a one-byte payload. *)
Definition w_payload : World :=
  mkWorld {[ 1%positive := mkAllocation "abc" (Some 2%positive) [ev_start] ]}
          {[ 2%positive := mkJob [Byte.x01] ]} 3 [].

(** An allocation (pointer 1) without a job. *)
Definition w_nojob : World :=
  mkWorld {[ 1%positive := mkAllocation "abc" None [ev_start] ]} ∅ 2 [].

Definition req (m p b : string) : Request := mkRequest m p [] b.

(** A test unmarshaller into struct{TaskName string}, following encoding/json
    for keys in ASCII without escapes: a key matches the field exactly or up
    to ASCII case, the last match wins, null leaves the field alone, and a
    value of another type is an UnmarshalTypeError; the top-level value must
    be an object or null.  String contents are kept as read. *)
Definition ascii_upper (c : ascii) : ascii :=
  if (97 <=? nat_of_ascii c)%nat && (nat_of_ascii c <=? 122)%nat
  then ascii_of_nat (nat_of_ascii c - 32) else c.

Fixpoint fold_name (s : string) : string :=
  match s with
  | String c r => String (ascii_upper c) (fold_name r)
  | EmptyString => EmptyString
  end.

Definition json_kind (v : json) : string :=
  match v with
  | JNull => "null" | JBool _ => "bool" | JNumber _ => "number"
  | JString _ => "string" | JArray _ => "array" | JObject _ => "object"
  end.

Definition unmarshal_restart (v : json) : error + string :=
  match v with
  | JNull => inr EmptyString
  | JObject ms =>
      let '(saved, tn) :=
        fold_left (fun (st : option error * string) (m : string * json) =>
          let '(saved, tn) := st in
          let '(k, x) := m in
          if String.eqb (fold_name k) "TASKNAME" then
            match x with
            | JString s => (saved, s)
            | JNull => (saved, tn)
            | _ =>
                (match saved with
                 | Some _ => saved
                 | None => Some (ErrGeneric ("json: cannot unmarshal " ++ json_kind x
                                  ++ " into Go struct field .TaskName of type string"))
                 end, tn)
            end
          else (saved, tn)) ms (None, EmptyString) in
      match saved with Some e => inl e | None => inr tn end
  | _ => inl (ErrGeneric ("json: cannot unmarshal " ++ json_kind v
                           ++ " into Go value of type struct { TaskName string }"))
  end.

(** The agent [s] decoding the Restart body with encoding/json. *)
Definition with_json_restart (s : Agent) : Agent :=
  mkAgent (parse s) (parseToken s) (client_running s) (clientNotRunning s)
    (rpcHandlerForAlloc s) (rpcHandlerForNode s) (rpc_call s)
    (json_Decode unmarshal_restart) (decode_signal_body s) (ValidateMigrateToken s)
    (GetAllocFS s) (Snapshot s) (snappy_Decode s) (PopulateEventDisplayMessage s).


End Demo.

Example restart_routes_local :
  ClientAllocRequest (Demo.agent (true, false, false) Demo.ok_rpc true)
    (Demo.req "PUT" "/v1/client/allocation/abc/restart" "{TaskName: web}") Demo.w0
  = (inr (ResReply GenericResponse),
     mkWorld ∅ ∅ 1 [EvResolveAlloc "abc";
                     EvRPC LocalClientRPC "Allocations.Restart"
                       (ArgsRestart (mkRestartReq "abc" "web"))]).
Proof. vm_compute. reflexivity. Qed.

(** The signal body of the demo agent names "other-alloc"; the RPC still
    names the allocation of the path. *)
Example signal_body_cannot_redirect :
  ClientAllocRequest (Demo.agent (false, true, false) Demo.ok_rpc true)
    (Demo.req "POST" "/v1/client/allocation/abc/signal" "{AllocID: other-alloc}") Demo.w0
  = (inr (ResReply GenericResponse),
     mkWorld ∅ ∅ 1 [EvResolveAlloc "abc";
                     EvRPC ClientRPC "ClientAllocations.Signal"
                       (ArgsSignal (mkSignalReq "abc" "web" "SIGHUP"))]).
Proof. vm_compute. reflexivity. Qed.

(** The calls made between [w] and [w']: at most one RPC, and only
    through the transport and method that the handler flags [h] select for
    the operation [op]. *)
Definition routed_rpcs (w w' : World) (h : bool * bool * bool) (op : string) : Prop :=
  exists l, trace w' = List.app (trace w) l /\
    (List.length (filter is_rpc l) <= 1)%nat /\
    (forall t m a, In (EvRPC t m a) l -> route h op = Some (t, m)).

(** * Properties *)

Local Close Scope string_scope.

(** ** Step lemmas *)

Lemma dispatch_eq s h op a w :
  dispatch s h op a w =
  match route h op with
  | Some (t, m) => (rpc_call s t m a, logged w (EvRPC t m a))
  | None => (inl (CodedError 400 noRouteErr), w)
  end.
Proof. unfold dispatch. destruct (route h op) as [[t m]|]; reflexivity. Qed.

Lemma route_none h op :
  route h op = None <-> h = (false, false, false).
Proof.
  destruct h as [[[|] [|]] [|]]; cbn; split; congruence.
Qed.

Lemma route_method h op t m :
  route h op = Some (t, m) ->
  m = ("Allocations." ++ op)%string \/ m = ("ClientAllocations." ++ op)%string.
Proof.
  destruct h as [[[|] [|]] [|]]; cbn; intros H; inversion H; auto.
Qed.

Lemma logged_trace w ev : trace (logged w ev) = trace w ++ [ev].
Proof. reflexivity. Qed.

Ltac step :=
  repeat first
    [ progress unfold bind, ret, emit, rpc, resolveAlloc, resolveNode in *
    | progress cbn beta iota zeta in *
    | rewrite dispatch_eq ].

(** ** C2 *)

(** C2: for every Restart and Signal request, every RPC the handler issues
    names the allocation of the URL path, whatever the body holds: the
    restart body is decoded into a struct with only TaskName, and the signal
    request gets [args.AllocID = allocID] after the body is decoded. *)
Theorem restart_signal_use_path_AllocID (s : Agent) (allocID : string)
    (req : Request) (w : World) :
  (exists l, trace (snd (allocRestart s allocID req w)) = trace w ++ l /\
     forall t m a, In (EvRPC t m a) l -> args_AllocID a = Some allocID) /\
  (exists l, trace (snd (allocSignal s allocID req w)) = trace w ++ l /\
     forall t m a, In (EvRPC t m a) l -> args_AllocID a = Some allocID).
Proof.
  split.
  - unfold allocRestart.
    destruct (decode_restart_body s (Body req)) as [err|tn].
    + exists []. rewrite app_nil_r. split; [reflexivity | intros ? ? ? []].
    + step.
      destruct (route (rpcHandlerForAlloc s allocID) "Restart") as [[t m]|]; cbn.
      * exists [EvResolveAlloc allocID; EvRPC t m
                  (ArgsRestart (mkRestartReq allocID
                     (if negb (String.eqb tn EmptyString) then tn else EmptyString)))].
        rewrite <- app_assoc. split; [reflexivity|].
        intros t' m' a [H|[H|[]]]; inversion H; reflexivity.
      * exists [EvResolveAlloc allocID]. split; [reflexivity|].
        intros t' m' a [H|[]]; discriminate.
  - unfold allocSignal.
    destruct (negb _).
    + exists []. rewrite app_nil_r. split; [reflexivity | intros ? ? ? []].
    + destruct (decode_signal_body s (Body req)) as [err|b].
      * exists []. rewrite app_nil_r. split; [reflexivity | intros ? ? ? []].
      * step.
        destruct (route (rpcHandlerForAlloc s allocID) "Signal") as [[t m]|]; cbn.
        -- exists [EvResolveAlloc allocID;
                   EvRPC t m (ArgsSignal (mkSignalReq allocID (sr_Task b) (sr_Signal b)))].
           rewrite <- app_assoc. split; [reflexivity|].
           intros t' m' a [H|[H|[]]]; inversion H; reflexivity.
        -- exists [EvResolveAlloc allocID]. split; [reflexivity|].
           intros t' m' a [H|[]]; discriminate.
Qed.

(** ** C3 *)

(** C3: when context resolution yields no execution context (no local
    client, no client RPC, no server RPC), Restart, Signal, GarbageCollect,
    Stats and GarbageCollectAll fail with the BadRequest (400) error "No
    local Node and node_id not provided", and the only call they make is the
    resolution itself: no RPC.  (Restart and Signal resolve the context
    after their body is decoded, Signal after its method check.) *)
Theorem no_route_is_bad_request (s : Agent) (allocID : string)
    (req : Request) (w : World)
    (Halloc : rpcHandlerForAlloc s allocID = (false, false, false))
    (Hnode : rpcHandlerForNode s (query_get (Query req) "node_id") = (false, false, false)) :
  (forall tn, decode_restart_body s (Body req) = inr tn ->
     allocRestart s allocID req w
     = (inl (CodedError 400 noRouteErr), logged w (EvResolveAlloc allocID))) /\
  ((Method req = "POST"%string \/ Method req = "PUT"%string) ->
   forall b, decode_signal_body s (Body req) = inr b ->
     allocSignal s allocID req w
     = (inl (CodedError 400 noRouteErr), logged w (EvResolveAlloc allocID))) /\
  allocGC s allocID req w
    = (inl (CodedError 400 noRouteErr), logged w (EvResolveAlloc allocID)) /\
  allocStats s allocID req w
    = (inl (CodedError 400 noRouteErr), logged w (EvResolveAlloc allocID)) /\
  ClientGCRequest s req w
    = (inl (CodedError 400 noRouteErr),
       logged w (EvResolveNode (query_get (Query req) "node_id"))).
Proof.
  split; [|split; [|split; [|split]]].
  - intros tn Hb. unfold allocRestart. rewrite Hb. step. rewrite Halloc. reflexivity.
  - intros Hm b Hb. unfold allocSignal.
    destruct Hm as [Hm|Hm]; rewrite Hm; cbn; rewrite Hb; step; rewrite Halloc; reflexivity.
  - unfold allocGC. step. rewrite Halloc. reflexivity.
  - unfold allocStats. step. rewrite Halloc. reflexivity.
  - unfold ClientGCRequest. step. rewrite Hnode. reflexivity.
Qed.

(** ** C10 *)

Lemma skip_space_all (b : string) : all_space b = true -> skip_space b = EmptyString.
Proof.
  induction b as [|c r IH]; [reflexivity|].
  intros H. change (all_space (String c r)) with (is_space c && all_space r) in H.
  apply andb_prop in H as [Hc Hr].
  change (skip_space (String c r)) with (if is_space c then skip_space r else String c r).
  rewrite Hc. auto.
Qed.

Lemma skip_space_app (ws b : string) :
  all_space ws = true -> skip_space (ws ++ b) = skip_space b.
Proof.
  induction ws as [|c r IH]; [reflexivity|].
  intros H. change (all_space (String c r)) with (is_space c && all_space r) in H.
  apply andb_prop in H as [Hc Hr].
  change (skip_space (String c r ++ b)) with (if is_space c then skip_space (r ++ b) else String c (r ++ b)).
  rewrite Hc. auto.
Qed.

Lemma read_value_bad_start (ws r : string) (c : ascii) :
  all_space ws = true -> is_space c = false -> starts_value c = false ->
  json_read_value (ws ++ String c r)
  = inl (JSyntax c "looking for beginning of value"%string).
Proof.
  intros Hws Hsp Hst.
  unfold starts_value in Hst. rewrite !orb_false_iff in Hst.
  destruct Hst as [[[[[[[H1 H2] H3] H4] H5] H6] H7] H8].
  assert (Hsk : skip_space (ws ++ String c r) = String c r)
    by (rewrite skip_space_app by exact Hws;
        change (skip_space (String c r)) with (if is_space c then skip_space r else String c r);
        rewrite Hsp; reflexivity).
  unfold json_read_value. rewrite Hsk.
  cbn [scan_value]. rewrite Hsk, H1, H2, H3, H4, H5, H6, H7, H8. reflexivity.
Qed.

Lemma read_value_empty_object (rest : string) :
  json_read_value ("{}" ++ rest) = inr (JObject [], rest).
Proof. reflexivity. Qed.


(** ** C4 *)

(** C4: a snapshot request (client running) whose migrate token fails
    validation returns PermissionDenied (403 at the boundary); the
    validation is the only call made: no context resolution, no filesystem
    access, no RPC. *)
Theorem snapshot_invalid_token (s : Agent) (req : Request) (allocID : string)
    (w : World)
    (Hpath : Split "/"%char (TrimPrefix (Path req) "/v1/client/allocation/")
             = [allocID; "snapshot"%string])
    (Hclient : client_running s = true)
    (Htoken : ValidateMigrateToken s allocID (parseToken s req) = false) :
  ClientAllocRequest s req w
  = (inl ErrPermissionDenied,
     logged w (EvValidateMigrateToken allocID (parseToken s req))) /\
  http_status ErrPermissionDenied = 403.
Proof.
  split; [|reflexivity].
  unfold ClientAllocRequest. rewrite Hpath. cbn.
  rewrite Hclient. cbn.
  unfold lift, allocSnapshot. step. rewrite Htoken. reflexivity.
Qed.

(** ** C1 *)

(** C1 (amended): when a route exists and the backend RPC fails with [e],
    Restart, Signal, GarbageCollect and Stats surface [e] as a 404 coded
    error with [e]'s message whenever [e] is recognised as "no connection
    to target node" or "allocation unknown to target"; GarbageCollectAll
    does so only for "no connection", and passes every other error,
    "allocation unknown to target" included, through unchanged. *)
Theorem backend_not_found_is_404 (s : Agent) (allocID : string)
    (req : Request) (w : World) (e : error)
    (Halloc : rpcHandlerForAlloc s allocID <> (false, false, false))
    (Hnode : rpcHandlerForNode s (query_get (Query req) "node_id") <> (false, false, false))
    (Hrpc : forall t m a, rpc_call s t m a = inl e) :
  (IsErrNoNodeConn e || IsErrUnknownAllocation e = true ->
   (forall tn, decode_restart_body s (Body req) = inr tn ->
      fst (allocRestart s allocID req w) = inl (CodedError 404 (Error e))) /\
   ((Method req = "POST"%string \/ Method req = "PUT"%string) ->
    forall b, decode_signal_body s (Body req) = inr b ->
      fst (allocSignal s allocID req w) = inl (CodedError 404 (Error e))) /\
   fst (allocGC s allocID req w) = inl (CodedError 404 (Error e)) /\
   fst (allocStats s allocID req w) = inl (CodedError 404 (Error e))) /\
  (IsErrNoNodeConn e = true ->
   fst (ClientGCRequest s req w) = inl (CodedError 404 (Error e))) /\
  (IsErrNoNodeConn e = false ->
   fst (ClientGCRequest s req w) = inl e).
Proof.
  assert (Ha : forall op, exists t m, route (rpcHandlerForAlloc s allocID) op = Some (t, m)).
  { intros op. destruct (route (rpcHandlerForAlloc s allocID) op) as [[t m]|] eqn:E.
    - eauto.
    - apply route_none in E. contradiction. }
  assert (Hn : forall op, exists t m,
             route (rpcHandlerForNode s (query_get (Query req) "node_id")) op = Some (t, m)).
  { intros op. destruct (route _ op) as [[t m]|] eqn:E.
    - eauto.
    - apply route_none in E. contradiction. }
  split; [|split].
  - intros Hk. split; [|split; [|split]].
    + intros tn Hb. unfold allocRestart. rewrite Hb. step.
      destruct (Ha "Restart"%string) as (t & m & ->). cbn.
      rewrite Hrpc. cbn. rewrite Hk. reflexivity.
    + intros Hm b Hb. unfold allocSignal.
      destruct Hm as [Hm|Hm]; rewrite Hm; cbn; rewrite Hb; step;
        destruct (Ha "Signal"%string) as (t & m & ->); cbn;
        rewrite Hrpc; cbn; rewrite Hk; reflexivity.
    + unfold allocGC. step.
      destruct (Ha "GarbageCollect"%string) as (t & m & ->). cbn.
      rewrite Hrpc. cbn. rewrite Hk. reflexivity.
    + unfold allocStats. step.
      destruct (Ha "Stats"%string) as (t & m & ->). cbn.
      rewrite Hrpc. cbn. rewrite Hk. reflexivity.
  - intros Hk. unfold ClientGCRequest. step.
    destruct (Hn "GarbageCollectAll"%string) as (t & m & ->). cbn.
    rewrite Hrpc. cbn. rewrite Hk. reflexivity.
  - intros Hk. unfold ClientGCRequest. step.
    destruct (Hn "GarbageCollectAll"%string) as (t & m & ->). cbn.
    rewrite Hrpc. cbn. rewrite Hk. reflexivity.
Qed.

(** ** C5 *)

(** C5: with a valid migrate token, a failure to obtain the allocation's
    filesystem handle yields the plain error "allocation not found", which
    carries no 404 code (contrast allocGet's [CodedError(404, ...)]), so the
    boundary answers 500; a streaming failure yields "error making
    snapshot: <cause>", also 500. *)
Theorem snapshot_errors (s : Agent) (allocID : string) (req : Request) (w : World)
    (Htoken : ValidateMigrateToken s allocID (parseToken s req) = true) :
  (forall e, GetAllocFS s allocID = inl e ->
     fst (allocSnapshot s allocID req w) = inl (ErrGeneric allocNotFoundErr) /\
     http_status (ErrGeneric allocNotFoundErr) = 500) /\
  (forall h e, GetAllocFS s allocID = inr h -> Snapshot s h = Some e ->
     fst (allocSnapshot s allocID req w)
     = inl (ErrGeneric ("error making snapshot: " ++ Error e)%string) /\
     http_status (ErrGeneric ("error making snapshot: " ++ Error e)%string) = 500).
Proof.
  split.
  - intros e He. unfold allocSnapshot. step. rewrite Htoken. cbn. rewrite He.
    split; reflexivity.
  - intros h e Hh He. unfold allocSnapshot. step. rewrite Htoken. cbn. rewrite Hh.
    cbn. rewrite He. split; reflexivity.
Qed.

(** ** C7 *)

(** C7: a successful List returns [out.Allocations] with the display
    messages of every stub populated; when the RPC returns no allocations
    (nil or empty), the result is the empty sequence, never nil. *)
Theorem list_never_nil (s : Agent) (req : Request) (w : World)
    (outAllocations : option (list AllocListStub))
    (Hget : Method req = "GET"%string)
    (Hparse : parse s req = false)
    (Hrpc : rpc_call s AgentRPC "Alloc.List" ArgsAllocList
            = inr (AllocListResponse outAllocations)) :
  fst (AllocsRequest s req w)
  = inr (Some (map (SetEventDisplayMessagesStub s)
                 (match outAllocations with Some l => l | None => [] end))) /\
  (outAllocations = None \/ outAllocations = Some [] ->
   fst (AllocsRequest s req w) = inr (Some [])).
Proof.
  assert (Hres : fst (AllocsRequest s req w)
                 = inr (Some (map (SetEventDisplayMessagesStub s)
                          (match outAllocations with Some l => l | None => [] end)))).
  { unfold AllocsRequest. rewrite Hget, Hparse. cbn. step. rewrite Hrpc.
    destruct outAllocations; reflexivity. }
  split; [exact Hres|].
  intros [-> | ->]; exact Hres.
Qed.

(** ** C9 *)

(** C9: a Get of an allocation without a job, or whose job payload is
    empty, returns the very object the RPC produced: no snappy decoding is
    attempted, no copy is allocated (the fresh-pointer counter is
    unchanged) and the job heap is untouched; the event display messages
    are populated on that object in place. *)
Theorem get_empty_payload_same_object (s : Agent) (allocID : string)
    (req : Request) (w : World) (p : positive) (a : Allocation)
    (Hget : Method req = "GET"%string)
    (Hparse : parse s req = false)
    (Hrpc : rpc_call s AgentRPC "Alloc.GetAlloc" (ArgsAllocSpecific allocID)
            = inr (SingleAllocResponse (Some p)))
    (Ha : allocs w !! p = Some a)
    (Hempty : alloc_Job a = None \/
              exists jp, alloc_Job a = Some jp /\ Payload (jobs w !!! jp) = []) :
  allocGet s allocID req w
  = (inr (Some p),
     mkWorld (<[p := SetEventDisplayMessages s a]> (allocs w)) (jobs w) (next_ptr w)
       (trace w ++ [EvRPC AgentRPC "Alloc.GetAlloc" (ArgsAllocSpecific allocID)])).
Proof.
  unfold allocGet. rewrite Hget, Hparse. cbn -[bool_decide]. step.
  rewrite Hrpc. cbn -[bool_decide].
  unfold load_alloc, load_job, store_alloc. cbn -[bool_decide].
  rewrite (lookup_total_correct _ _ _ Ha).
  destruct Hempty as [Hj | (jp & Hj & Hp)]; rewrite Hj; cbn -[bool_decide].
  - rewrite bool_decide_eq_true_2 by reflexivity. cbn.
    rewrite (lookup_total_correct _ _ _ Ha). reflexivity.
  - rewrite Hp. rewrite (bool_decide_eq_true_2 ([] = [])) by reflexivity.
    rewrite andb_false_r. cbn.
    rewrite (lookup_total_correct _ _ _ Ha). reflexivity.
Qed.

(** ** C6 *)

(** Every object of the heap sits below the fresh-pointer counter. *)
Definition wf_world (w : World) : Prop :=
  forall k, is_Some (allocs w !! k) \/ is_Some (jobs w !! k) -> (k < next_ptr w)%positive.

(** C6: a Get of an allocation whose job carries a non-empty payload that
    snappy decodes returns a different object, a copy, whose job payload is
    the decoded bytes, while the allocation object the RPC produced and its
    job (with the compressed payload) are left unchanged in the heap. *)
Theorem get_payload_decoded_on_copy (s : Agent) (allocID : string)
    (req : Request) (w : World) (p jp : positive) (a : Allocation) (j : Job)
    (decoded : list Byte.byte)
    (Hwf : wf_world w)
    (Hget : Method req = "GET"%string)
    (Hparse : parse s req = false)
    (Hrpc : rpc_call s AgentRPC "Alloc.GetAlloc" (ArgsAllocSpecific allocID)
            = inr (SingleAllocResponse (Some p)))
    (Ha : allocs w !! p = Some a)
    (Hj : alloc_Job a = Some jp)
    (Hjob : jobs w !! jp = Some j)
    (Hne : Payload j <> [])
    (Hdec : snappy_Decode s (Payload j) = inr decoded) :
  exists p' jp' w',
    allocGet s allocID req w = (inr (Some p'), w') /\
    p' <> p /\ jp' <> jp /\
    option_map alloc_Job (allocs w' !! p') = Some (Some jp') /\
    jobs w' !! jp' = Some (mkJob decoded) /\
    allocs w' !! p = Some a /\
    jobs w' !! jp = Some j.
Proof.
  set (n := next_ptr w).
  assert (Hp : (p < n)%positive) by (apply Hwf; left; rewrite Ha; eauto).
  assert (Hjp : (jp < n)%positive) by (apply Hwf; right; rewrite Hjob; eauto).
  set (a' := mkAllocation (alloc_ID a) (Some n) (alloc_Events a)).
  exists (Pos.succ n), n,
    (mkWorld (<[Pos.succ n := SetEventDisplayMessages s a']> (<[Pos.succ n := a']> (allocs w)))
             (<[n := mkJob decoded]> (<[n := j]> (jobs w)))
             (Pos.succ (Pos.succ n))
             (trace w ++ [EvRPC AgentRPC "Alloc.GetAlloc" (ArgsAllocSpecific allocID)]
                      ++ [EvSnappyDecode])).
  split; [|split; [lia|split; [lia|split; [|split; [|split]]]]].
  - unfold allocGet, alloc_Copy, load_alloc, load_job, store_alloc, store_job,
      fresh, rpc, emit, logged, bind, ret.
    rewrite Hget, Hparse, Hrpc. cbn -[bool_decide].
    rewrite (lookup_total_correct _ _ _ Ha), Hj. cbn -[bool_decide].
    rewrite (lookup_total_correct _ _ _ Hjob).
    rewrite bool_decide_eq_false_2 by discriminate.
    rewrite bool_decide_eq_false_2 by exact Hne. cbn.
    rewrite Hdec. cbn.
    rewrite (lookup_total_correct _ _ _ Ha), Hj, (lookup_total_correct _ _ _ Hjob). cbn.
    rewrite !lookup_total_insert_eq. cbn.
    rewrite !lookup_total_insert_eq.
    rewrite <- app_assoc. reflexivity.
  - cbn. rewrite lookup_insert_eq. reflexivity.
  - cbn. rewrite lookup_insert_eq. reflexivity.
  - cbn. rewrite !lookup_insert_ne by lia. exact Ha.
  - cbn. rewrite !lookup_insert_ne by lia. exact Hjob.
Qed.

(** ** Counterexamples and evaluations at concrete inputs *)

(** C1: GarbageCollectAll through the local client, whose RPC fails with
    "allocation unknown to target": the error comes back unchanged, no 404,
    and the boundary answers 500. *)
Lemma gc_all_unknown_allocation_not_404 :
  let e := RPCError UnknownAllocation "Unknown allocation abc" in
  fst (ClientGCRequest (Demo.agent (true, false, false) (Demo.err_rpc e) true)
         (Demo.req "PUT" "/v1/client/gc" EmptyString) Demo.w0) = inl e /\
  http_status e = 500.
Proof. split; reflexivity. Qed.

(** C5: the allocation directory of abc cannot be found: the snapshot
    request fails with the uncoded "allocation not found", 500 at the
    boundary. *)
Lemma snapshot_missing_fs_is_500 :
  ClientAllocRequest (Demo.without_alloc_fs (Demo.agent (true, false, false) Demo.ok_rpc true))
    (Demo.req "GET" "/v1/client/allocation/abc/snapshot" EmptyString) Demo.w0
  = (inl (ErrGeneric allocNotFoundErr),
     mkWorld ∅ ∅ 1 [EvValidateMigrateToken "abc" EmptyString; EvGetAllocFS "abc"]) /\
  http_status (ErrGeneric allocNotFoundErr) = 500.
Proof. split; vm_compute; reflexivity. Qed.

(** C8: a GET on the restart endpoint is not refused with 405: the restart
    RPC is made and its reply returned. *)
Lemma restart_accepts_get :
  ClientAllocRequest (Demo.agent (true, false, false) Demo.ok_rpc true)
    (Demo.req "GET" "/v1/client/allocation/abc/restart" "{}") Demo.w0
  = (inr (ResReply GenericResponse),
     mkWorld ∅ ∅ 1 [EvResolveAlloc "abc";
                     EvRPC LocalClientRPC "Allocations.Restart"
                       (ArgsRestart (mkRestartReq "abc" EmptyString))]).
Proof. vm_compute. reflexivity. Qed.


(** ** Witnesses *)

Lemma no_route_is_bad_request_witness :
  rpcHandlerForAlloc (Demo.agent (false, false, false) Demo.ok_rpc true) "abc"
    = (false, false, false) /\
  rpcHandlerForNode (Demo.agent (false, false, false) Demo.ok_rpc true)
    (query_get (Query (Demo.req "PUT" "/v1/client/allocation/abc/restart" "{}")) "node_id")
    = (false, false, false) /\
  allocGC (Demo.agent (false, false, false) Demo.ok_rpc true) "abc"
    (Demo.req "PUT" "/v1/client/allocation/abc/restart" "{}") Demo.w0
  = (inl (CodedError 400 noRouteErr), logged Demo.w0 (EvResolveAlloc "abc")).
Proof.
  split; [reflexivity|split; [reflexivity|]].
  apply (no_route_is_bad_request (Demo.agent (false, false, false) Demo.ok_rpc true) "abc"
           (Demo.req "PUT" "/v1/client/allocation/abc/restart" "{}") Demo.w0);
    reflexivity.
Defined.


Lemma snapshot_invalid_token_witness :
  Split "/"%char (TrimPrefix "/v1/client/allocation/abc/snapshot" "/v1/client/allocation/")
    = ["abc"; "snapshot"]%string /\
  ClientAllocRequest (Demo.agent (true, false, false) Demo.ok_rpc false)
    (Demo.req "GET" "/v1/client/allocation/abc/snapshot" EmptyString) Demo.w0
  = (inl ErrPermissionDenied,
     logged Demo.w0 (EvValidateMigrateToken "abc" EmptyString)) /\
  http_status ErrPermissionDenied = 403.
Proof.
  split; [vm_compute; reflexivity|].
  apply (snapshot_invalid_token (Demo.agent (true, false, false) Demo.ok_rpc false)
           (Demo.req "GET" "/v1/client/allocation/abc/snapshot" EmptyString) "abc");
    vm_compute; reflexivity.
Defined.

Lemma backend_not_found_is_404_witness :
  (forall t m a, Demo.err_rpc (RPCError NoNodeConn "No path to node") t m a
                 = inl (RPCError NoNodeConn "No path to node")) /\
  fst (allocStats (Demo.agent (false, true, false)
                     (Demo.err_rpc (RPCError NoNodeConn "No path to node")) true) "abc"
         (Demo.req "GET" "/v1/client/allocation/abc/stats" EmptyString) Demo.w0)
  = inl (CodedError 404 "No path to node").
Proof.
  split; [reflexivity|].
  apply (backend_not_found_is_404
           (Demo.agent (false, true, false)
              (Demo.err_rpc (RPCError NoNodeConn "No path to node")) true) "abc"
           (Demo.req "GET" "/v1/client/allocation/abc/stats" EmptyString) Demo.w0
           (RPCError NoNodeConn "No path to node")).
  - cbv. intro H. inversion H.
  - cbv. intro H. inversion H.
  - reflexivity.
  - reflexivity.
Defined.

Lemma snapshot_errors_witness :
  ValidateMigrateToken (Demo.without_alloc_fs (Demo.agent (true, false, false) Demo.ok_rpc true))
    "abc" EmptyString = true /\
  fst (allocSnapshot (Demo.without_alloc_fs (Demo.agent (true, false, false) Demo.ok_rpc true))
         "abc" (Demo.req "GET" "/v1/client/allocation/abc/snapshot" EmptyString) Demo.w0)
  = inl (ErrGeneric allocNotFoundErr).
Proof.
  split; [reflexivity|].
  apply (proj1 (snapshot_errors
                  (Demo.without_alloc_fs (Demo.agent (true, false, false) Demo.ok_rpc true))
                  "abc" (Demo.req "GET" "/v1/client/allocation/abc/snapshot" EmptyString)
                  Demo.w0 eq_refl) (ErrGeneric "no such file or directory") eq_refl).
Defined.

Lemma list_never_nil_witness :
  rpc_call (Demo.agent (true, false, false) Demo.list_rpc true) AgentRPC "Alloc.List"
    ArgsAllocList = inr (AllocListResponse None) /\
  fst (AllocsRequest (Demo.agent (true, false, false) Demo.list_rpc true)
         (Demo.req "GET" "/v1/allocations" EmptyString) Demo.w0) = inr (Some []).
Proof.
  split; [reflexivity|].
  apply (proj2 (list_never_nil (Demo.agent (true, false, false) Demo.list_rpc true)
                  (Demo.req "GET" "/v1/allocations" EmptyString) Demo.w0 None
                  eq_refl eq_refl eq_refl)).
  left. reflexivity.
Defined.

Lemma get_empty_payload_same_object_witness :
  allocs Demo.w_nojob !! 1%positive = Some (mkAllocation "abc" None [Demo.ev_start]) /\
  allocGet (Demo.agent (true, false, false) Demo.get_rpc true) "abc"
    (Demo.req "GET" "/v1/allocation/abc" EmptyString) Demo.w_nojob
  = (inr (Some 1%positive),
     mkWorld (<[1%positive := mkAllocation "abc" None
                               [mkTaskEvent "Started" "Started"]]> (allocs Demo.w_nojob))
       ∅ 2 [EvRPC AgentRPC "Alloc.GetAlloc" (ArgsAllocSpecific "abc")]).
Proof.
  split; [reflexivity|].
  apply (get_empty_payload_same_object (Demo.agent (true, false, false) Demo.get_rpc true)
           "abc" (Demo.req "GET" "/v1/allocation/abc" EmptyString) Demo.w_nojob 1%positive
           (mkAllocation "abc" None [Demo.ev_start])); try reflexivity.
  left. reflexivity.
Defined.

Lemma get_payload_decoded_on_copy_witness :
  wf_world Demo.w_payload /\
  exists p' jp' w',
    allocGet (Demo.agent (true, false, false) Demo.get_rpc true) "abc"
      (Demo.req "GET" "/v1/allocation/abc" EmptyString) Demo.w_payload
    = (inr (Some p'), w') /\
    p' <> 1%positive /\ jp' <> 2%positive /\
    option_map alloc_Job (allocs w' !! p') = Some (Some jp') /\
    jobs w' !! jp' = Some (mkJob [Byte.x01; Byte.x01]) /\
    allocs w' !! 1%positive = Some (mkAllocation "abc" (Some 2%positive) [Demo.ev_start]) /\
    jobs w' !! 2%positive = Some (mkJob [Byte.x01]).
Proof.
  assert (Hwf : wf_world Demo.w_payload).
  { intros k [[x Hx]|[x Hx]]; cbn in Hx;
      apply lookup_singleton_Some in Hx as [<- _]; cbn; lia. }
  split; [exact Hwf|].
  apply (get_payload_decoded_on_copy (Demo.agent (true, false, false) Demo.get_rpc true)
           "abc" (Demo.req "GET" "/v1/allocation/abc" EmptyString) Demo.w_payload
           1%positive 2%positive (mkAllocation "abc" (Some 2%positive) [Demo.ev_start])
           (mkJob [Byte.x01]) [Byte.x01; Byte.x01] Hwf); try reflexivity.
  discriminate.
Defined.

(** * Further properties of the endpoints *)

(** ** Path handling *)

Lemma Split_nonempty (sep : ascii) (str : string) : Split sep str <> [].
Proof.
  destruct str as [|c rest]; cbn; [discriminate|].
  destruct (Ascii.eqb c sep); [discriminate|].
  destruct (Split sep rest); discriminate.
Qed.

Lemma Split_no_char (sep : ascii) (str : string) :
  no_char sep str = true -> Split sep str = [str].
Proof.
  induction str as [|c rest IH]; cbn; [reflexivity|].
  intros H. apply andb_prop in H as [Hc Hr].
  apply negb_true_iff in Hc. rewrite Hc, (IH Hr). reflexivity.
Qed.

Lemma Split_app_sep (sep : ascii) (a b : string) :
  no_char sep a = true ->
  Split sep (a ++ String sep b)%string = a :: Split sep b.
Proof.
  induction a as [|c rest IH]; simpl; intros H.
  - rewrite Ascii.eqb_refl. reflexivity.
  - apply andb_prop in H as [Hc Hr]. apply negb_true_iff in Hc.
    rewrite Hc, (IH Hr). reflexivity.
Qed.

Lemma string_length_app (a b : string) :
  String.length (a ++ b) = (String.length a + String.length b)%nat.
Proof. induction a as [|c a IH]; simpl; [reflexivity|]. rewrite IH. reflexivity. Qed.

Lemma TrimPrefix_app (pre x : string) : TrimPrefix (pre ++ x) pre = x.
Proof.
  unfold TrimPrefix.
  assert (Hp : String.prefix pre (pre ++ x) = true).
  { induction pre as [|c rest IH]; simpl; [destruct x; reflexivity|].
    destruct (Ascii.ascii_dec c c); [exact IH|congruence]. }
  rewrite Hp, string_length_app.
  replace (String.length pre + String.length x - String.length pre)%nat
    with (String.length x) by lia.
  clear Hp.
  induction pre as [|c rest IH]; simpl; [|exact IH].
  clear. induction x as [|c x IH]; [reflexivity|].
  simpl. change (substring 0 (String.length x) x = x) in IH. rewrite IH. reflexivity.
Qed.

(** strings.Split on "/" loses nothing: joining the tokens with "/" gives
    the path back, and there is always at least one token. *)
Theorem Split_join (sep : ascii) (str : string) :
  String.concat (String sep EmptyString) (Split sep str) = str /\ Split sep str <> [].
Proof.
  split; [|apply Split_nonempty].
  induction str as [|c rest IH]; cbn; [reflexivity|].
  destruct (Ascii.eqb c sep) eqn:E.
  - apply Ascii.eqb_eq in E. subst c.
    pose proof (Split_nonempty sep rest) as Hne.
    destruct (Split sep rest) as [|p ps]; [contradiction|].
    cbn. rewrite <- IH. reflexivity.
  - pose proof (Split_nonempty sep rest) as Hne.
    destruct (Split sep rest) as [|p ps]; [contradiction|].
    destruct ps as [|q qs]; cbn in *; rewrite <- IH; reflexivity.
Qed.

Lemma path_tokens (pre allocID action : string) :
  no_char "/"%char allocID = true -> no_char "/"%char action = true ->
  Split "/"%char (TrimPrefix (pre ++ allocID ++ String "/"%char action)%string pre)
  = [allocID; action].
Proof.
  intros Ha Hb. rewrite TrimPrefix_app, Split_app_sep by exact Ha.
  rewrite Split_no_char by exact Hb. reflexivity.
Qed.

(** ** Routing of /v1/client/allocation/<id>/<action> *)

(** A path /v1/client/allocation/<id>/<action>, with no "/" in the id or
    the action, reaches the handler named by the action with that id (the
    snapshot handler only when the client runs, otherwise the request fails
    with clientNotRunning before any call); any other action is a 404 that
    makes no call. *)
Theorem ClientAllocRequest_routes (s : Agent) (req : Request) (w : World)
    (allocID action : string)
    (Hpath : Path req = ("/v1/client/allocation/" ++ allocID ++ "/" ++ action)%string)
    (Hid : no_char "/"%char allocID = true)
    (Hact : no_char "/"%char action = true) :
  (action = "stats"%string ->
     ClientAllocRequest s req w = lift ResStats (allocStats s allocID req) w) /\
  (action = "snapshot"%string -> client_running s = true ->
     ClientAllocRequest s req w = lift (fun _ => ResNone) (allocSnapshot s allocID req) w) /\
  (action = "snapshot"%string -> client_running s = false ->
     ClientAllocRequest s req w = (inl (clientNotRunning s), w)) /\
  (action = "restart"%string ->
     ClientAllocRequest s req w = lift ResReply (allocRestart s allocID req) w) /\
  (action = "gc"%string ->
     ClientAllocRequest s req w = lift (fun _ => ResNone) (allocGC s allocID req) w) /\
  (action = "signal"%string ->
     ClientAllocRequest s req w = lift ResReply (allocSignal s allocID req) w) /\
  (~ In action ["stats"; "snapshot"; "restart"; "gc"; "signal"]%string ->
     ClientAllocRequest s req w = (inl (CodedError 404 resourceNotFoundErr), w)).
Proof.
  unfold ClientAllocRequest. rewrite Hpath.
  change ("/" ++ action)%string with (String "/"%char action).
  rewrite path_tokens by assumption.
  split; [intros ->; reflexivity|].
  split; [intros -> Hc; cbn; rewrite Hc; reflexivity|].
  split; [intros -> Hc; cbn; rewrite Hc; reflexivity|].
  split; [intros ->; reflexivity|].
  split; [intros ->; reflexivity|].
  split; [intros ->; reflexivity|].
  intros Hnot.
  destruct (String.eqb_spec action "stats") as [->|_]; [cbn in Hnot; tauto|].
  destruct (String.eqb_spec action "snapshot") as [->|_]; [cbn in Hnot; tauto|].
  destruct (String.eqb_spec action "restart") as [->|_]; [cbn in Hnot; tauto|].
  destruct (String.eqb_spec action "gc") as [->|_]; [cbn in Hnot; tauto|].
  destruct (String.eqb_spec action "signal") as [->|_]; [cbn in Hnot; tauto|].
  reflexivity.
Qed.

(** A client allocation path that does not split into exactly two
    segments after /v1/client/allocation/ is a 404 that makes no call. *)
Theorem ClientAllocRequest_bad_segments (s : Agent) (req : Request) (w : World)
    (Hlen : length (Split "/"%char (TrimPrefix (Path req) "/v1/client/allocation/")) <> 2%nat) :
  ClientAllocRequest s req w = (inl (CodedError 404 resourceNotFoundErr), w).
Proof.
  unfold ClientAllocRequest.
  destruct (Split "/"%char (TrimPrefix (Path req) "/v1/client/allocation/"))
    as [|a [|b [|c l]]]; cbn in Hlen; try reflexivity; lia.
Qed.

(** ** Routing of /v1/allocation/<id>[/<action>] *)

(** /v1/allocation/<id> reaches allocGet and /v1/allocation/<id>/stop
    reaches allocStop, with that id (when it holds no "/"); any other
    action, or a third segment, is a 404 that makes no call. *)
Theorem AllocSpecificRequest_routes (s : Agent) (req : Request) (w : World)
    (allocID : string) (Hid : no_char "/"%char allocID = true) :
  (Path req = ("/v1/allocation/" ++ allocID)%string ->
     AllocSpecificRequest s req w = lift' ResAlloc (allocGet s allocID req) w) /\
  (forall action, no_char "/"%char action = true ->
     Path req = ("/v1/allocation/" ++ allocID ++ "/" ++ action)%string ->
     AllocSpecificRequest s req w
     = if String.eqb action "stop" then lift' ResStop (allocStop s allocID req) w
       else (inl (CodedError 404 resourceNotFoundErr), w)) /\
  ((2 < length (Split "/"%char (TrimPrefix (Path req) "/v1/allocation/")))%nat ->
     AllocSpecificRequest s req w = (inl (CodedError 404 resourceNotFoundErr), w)).
Proof.
  split; [|split].
  - intros Hp. unfold AllocSpecificRequest. rewrite Hp, TrimPrefix_app.
    rewrite Split_no_char by exact Hid. reflexivity.
  - intros action Hact Hp. unfold AllocSpecificRequest. rewrite Hp.
    change ("/" ++ action)%string with (String "/"%char action).
    rewrite path_tokens by assumption. cbn.
    destruct (String.eqb action "stop"); reflexivity.
  - intros Hlen. unfold AllocSpecificRequest.
    apply Nat.ltb_lt in Hlen. rewrite Hlen. reflexivity.
Qed.

(** ** allocStop *)

(** allocStop refuses every method but POST and PUT with 405 before any
    call; for POST and PUT it makes exactly one Alloc.Stop RPC through the
    agent, naming the allocation of the path, and returns the backend's
    answer as it is: errors are not translated. *)
Theorem allocStop_spec (s : Agent) (allocID : string) (req : Request) (w : World) :
  (Method req <> "POST"%string -> Method req <> "PUT"%string ->
     allocStop s allocID req w = (inl (CodedError 405 ErrInvalidMethod), w)) /\
  (Method req = "POST"%string \/ Method req = "PUT"%string ->
     allocStop s allocID req w
     = (rpc_call s AgentRPC "Alloc.Stop" (ArgsAllocStop allocID),
        logged w (EvRPC AgentRPC "Alloc.Stop" (ArgsAllocStop allocID)))).
Proof.
  unfold allocStop. split.
  - intros H1 H2.
    destruct (String.eqb_spec (Method req) "POST"); [contradiction|].
    destruct (String.eqb_spec (Method req) "PUT"); [contradiction|]. reflexivity.
  - intros [H|H]; rewrite H; reflexivity.
Qed.

(** ** allocGet and AllocsRequest: early exits *)

(** allocGet answers 405 to any method but GET and makes no call; when
    s.parse has already written the response it returns nil without any
    call; an RPC error is returned unchanged; a reply without an
    allocation is the 404 "alloc not found".  The heap is never touched on
    these paths. *)
Theorem allocGet_early_exits (s : Agent) (allocID : string) (req : Request) (w : World) :
  (Method req <> "GET"%string ->
     allocGet s allocID req w = (inl (CodedError 405 ErrInvalidMethod), w)) /\
  (Method req = "GET"%string -> parse s req = true ->
     allocGet s allocID req w = (inr None, w)) /\
  (Method req = "GET"%string -> parse s req = false ->
   forall err, rpc_call s AgentRPC "Alloc.GetAlloc" (ArgsAllocSpecific allocID) = inl err ->
     allocGet s allocID req w
     = (inl err, logged w (EvRPC AgentRPC "Alloc.GetAlloc" (ArgsAllocSpecific allocID)))) /\
  (Method req = "GET"%string -> parse s req = false ->
   rpc_call s AgentRPC "Alloc.GetAlloc" (ArgsAllocSpecific allocID)
     = inr (SingleAllocResponse None) ->
     allocGet s allocID req w
     = (inl (CodedError 404 "alloc not found"),
        logged w (EvRPC AgentRPC "Alloc.GetAlloc" (ArgsAllocSpecific allocID)))).
Proof.
  unfold allocGet. split; [|split; [|split]].
  - intros H. destruct (String.eqb_spec (Method req) "GET"); [contradiction|]. reflexivity.
  - intros Hm Hp. rewrite Hm, Hp. reflexivity.
  - intros Hm Hp err He. rewrite Hm, Hp. cbn. step. rewrite He. reflexivity.
  - intros Hm Hp He. rewrite Hm, Hp. cbn. step. rewrite He. reflexivity.
Qed.

(** When the job payload cannot be snappy-decoded, allocGet returns the
    decoder's error and leaves the heap exactly as it was: no copy is made
    and the display messages of the stored allocation are not populated. *)
Theorem allocGet_decode_failure (s : Agent) (allocID : string)
    (req : Request) (w : World) (p jp : positive) (a : Allocation) (j : Job) (err : error)
    (Hget : Method req = "GET"%string)
    (Hparse : parse s req = false)
    (Hrpc : rpc_call s AgentRPC "Alloc.GetAlloc" (ArgsAllocSpecific allocID)
            = inr (SingleAllocResponse (Some p)))
    (Ha : allocs w !! p = Some a)
    (Hj : alloc_Job a = Some jp)
    (Hjob : jobs w !! jp = Some j)
    (Hne : Payload j <> [])
    (Hdec : snappy_Decode s (Payload j) = inl err) :
  allocGet s allocID req w
  = (inl err,
     mkWorld (allocs w) (jobs w) (next_ptr w)
       (trace w ++ [EvRPC AgentRPC "Alloc.GetAlloc" (ArgsAllocSpecific allocID);
                    EvSnappyDecode])).
Proof.
  unfold allocGet, load_alloc, load_job, rpc, emit, logged, bind, ret.
  rewrite Hget, Hparse, Hrpc. cbn -[bool_decide].
  rewrite (lookup_total_correct _ _ _ Ha), Hj. cbn -[bool_decide].
  rewrite (lookup_total_correct _ _ _ Hjob).
  rewrite bool_decide_eq_false_2 by discriminate.
  rewrite bool_decide_eq_false_2 by exact Hne. cbn.
  rewrite Hdec. rewrite <- app_assoc. reflexivity.
Qed.

(** AllocsRequest answers 405 to any method but GET without a call; when
    s.parse has already written the response it returns nil without an
    RPC; an RPC error is returned unchanged. *)
Theorem AllocsRequest_early_exits (s : Agent) (req : Request) (w : World) :
  (Method req <> "GET"%string ->
     AllocsRequest s req w = (inl (CodedError 405 ErrInvalidMethod), w)) /\
  (Method req = "GET"%string -> parse s req = true ->
     AllocsRequest s req w = (inr None, w)) /\
  (Method req = "GET"%string -> parse s req = false ->
   forall err, rpc_call s AgentRPC "Alloc.List" ArgsAllocList = inl err ->
     AllocsRequest s req w
     = (inl err, logged w (EvRPC AgentRPC "Alloc.List" ArgsAllocList))).
Proof.
  unfold AllocsRequest. split; [|split].
  - intros H. destruct (String.eqb_spec (Method req) "GET"); [contradiction|]. reflexivity.
  - intros Hm Hp. rewrite Hm, Hp. reflexivity.
  - intros Hm Hp err He. rewrite Hm, Hp. cbn. step. rewrite He. reflexivity.
Qed.

(** ** allocSignal: method and body *)

(** allocSignal checks the method before reading the body: any method but
    POST and PUT is a 405, and a body that does not decode is a 400
    "Failed to decode body: <decoder error>"; neither makes any call. *)
Theorem allocSignal_rejects (s : Agent) (allocID : string) (req : Request) (w : World) :
  (Method req <> "POST"%string -> Method req <> "PUT"%string ->
     allocSignal s allocID req w = (inl (CodedError 405 ErrInvalidMethod), w)) /\
  (Method req = "POST"%string \/ Method req = "PUT"%string ->
   forall err, decode_signal_body s (Body req) = inl err ->
     allocSignal s allocID req w
     = (inl (CodedError 400 ("Failed to decode body: " ++ Error err)%string), w)).
Proof.
  unfold allocSignal. split.
  - intros H1 H2.
    destruct (String.eqb_spec (Method req) "POST"); [contradiction|].
    destruct (String.eqb_spec (Method req) "PUT"); [contradiction|]. reflexivity.
  - intros [H|H] err He; rewrite H; cbn; rewrite He; reflexivity.
Qed.

(** ** One RPC per request, on the resolved route *)

Ltac routed_one :=
  unfold routed_rpcs; simpl; rewrite ?logged_trace;
  eexists; split; [rewrite <- ?app_assoc; reflexivity|];
  simpl; split; [lia|];
  let Hin := fresh "Hin" in
  intros ? ? ? Hin; simpl in Hin;
  repeat (destruct Hin as [Hin|Hin]; [try discriminate; inversion Hin; subst; assumption|]);
  contradiction.

Ltac routed_tail :=
  repeat match goal with
         | |- context [match ?x with inl _ => _ | inr _ => _ end] => destruct x
         end; routed_one.

(** Restart, Signal, GarbageCollect, Stats and GarbageCollectAll make at
    most one RPC, through the transport and method selected by the handler
    flags (local client "Allocations.<op>", else client or server
    "ClientAllocations.<op>"): no retry, no fallback to another transport. *)
Theorem at_most_one_routed_rpc (s : Agent) (allocID : string) (req : Request) (w : World) :
  routed_rpcs w (snd (allocRestart s allocID req w)) (rpcHandlerForAlloc s allocID) "Restart" /\
  routed_rpcs w (snd (allocSignal s allocID req w)) (rpcHandlerForAlloc s allocID) "Signal" /\
  routed_rpcs w (snd (allocGC s allocID req w)) (rpcHandlerForAlloc s allocID) "GarbageCollect" /\
  routed_rpcs w (snd (allocStats s allocID req w)) (rpcHandlerForAlloc s allocID) "Stats" /\
  routed_rpcs w (snd (ClientGCRequest s req w))
    (rpcHandlerForNode s (query_get (Query req) "node_id")) "GarbageCollectAll".
Proof.
  assert (Hnil : routed_rpcs w w (rpcHandlerForAlloc s allocID) "Signal").
  { exists []. rewrite app_nil_r. split; [reflexivity|]. split; [cbn; lia|].
    intros ? ? ? []. }
  split; [|split; [|split; [|split]]].
  - unfold allocRestart.
    destruct (decode_restart_body s (Body req)).
    + exists []. rewrite app_nil_r. split; [reflexivity|]. split; [cbn; lia|].
      intros ? ? ? [].
    + step. destruct (route _ "Restart") as [[t m]|] eqn:E; routed_tail.
  - unfold allocSignal.
    destruct (negb _); [exact Hnil|].
    destruct (decode_signal_body s (Body req)); [exact Hnil|].
    step. destruct (route _ "Signal") as [[t m]|] eqn:E; routed_tail.
  - unfold allocGC. step.
    destruct (route _ "GarbageCollect") as [[t m]|] eqn:E; routed_tail.
  - unfold allocStats. step.
    destruct (route _ "Stats") as [[t m]|] eqn:E; routed_tail.
  - unfold ClientGCRequest. step.
    destruct (route _ "GarbageCollectAll") as [[t m]|] eqn:E; routed_tail.
Qed.

(** ** What the RPC requests carry *)

(** Once a route is resolved, Restart sends the TaskName decoded from the
    body (empty when the body has none) for the path's allocation, Stats
    sends the "task" query parameter (empty when absent), and
    GarbageCollectAll resolves and sends the "node_id" query parameter
    (empty when absent); each makes exactly these two calls. *)
Theorem requests_carry_body_and_query (s : Agent) (allocID : string) (req : Request)
    (w : World) (t : transport) (m : string) :
  (forall tn, decode_restart_body s (Body req) = inr tn ->
     route (rpcHandlerForAlloc s allocID) "Restart" = Some (t, m) ->
     trace (snd (allocRestart s allocID req w))
     = trace w ++ [EvResolveAlloc allocID;
                   EvRPC t m (ArgsRestart (mkRestartReq allocID tn))]) /\
  (route (rpcHandlerForAlloc s allocID) "Stats" = Some (t, m) ->
     trace (snd (allocStats s allocID req w))
     = trace w ++ [EvResolveAlloc allocID;
                   EvRPC t m (ArgsStats allocID (query_get (Query req) "task"))]) /\
  (route (rpcHandlerForNode s (query_get (Query req) "node_id")) "GarbageCollectAll"
     = Some (t, m) ->
     trace (snd (ClientGCRequest s req w))
     = trace w ++ [EvResolveNode (query_get (Query req) "node_id");
                   EvRPC t m (ArgsNodeSpecific (query_get (Query req) "node_id"))]).
Proof.
  split; [|split].
  - intros tn Hb Hr. unfold allocRestart. rewrite Hb. step. rewrite Hr. simpl.
    replace (if negb (String.eqb tn EmptyString) then tn else EmptyString) with tn
      by (destruct (String.eqb_spec tn EmptyString); cbn; congruence).
    rewrite <- app_assoc. reflexivity.
  - intros Hr. unfold allocStats. step. rewrite Hr. simpl.
    destruct (normalize_alloc_err _); simpl; rewrite <- app_assoc; reflexivity.
  - intros Hr. unfold ClientGCRequest. step. rewrite Hr. simpl.
    destruct (normalize_node_err _); simpl; rewrite <- app_assoc; reflexivity.
Qed.

(** ** Results passed through *)

(** When the resolved route's RPC answers [r]: a reply is returned as it is
    by Restart and Signal, as nil by GarbageCollect and GarbageCollectAll,
    and as its Stats field by Stats; an error that is neither "no
    connection" nor "unknown allocation" is returned unchanged by all of
    them. *)
Theorem rpc_results_pass_through (s : Agent) (allocID : string) (req : Request)
    (w : World) (r : error + rpc_reply)
    (Halloc : rpcHandlerForAlloc s allocID <> (false, false, false))
    (Hnode : rpcHandlerForNode s (query_get (Query req) "node_id") <> (false, false, false))
    (Hrpc : forall t m a, rpc_call s t m a = r) :
  (forall reply, r = inr reply ->
     (forall tn, decode_restart_body s (Body req) = inr tn ->
        fst (allocRestart s allocID req w) = inr reply) /\
     ((Method req = "POST"%string \/ Method req = "PUT"%string) ->
      forall b, decode_signal_body s (Body req) = inr b ->
        fst (allocSignal s allocID req w) = inr reply) /\
     fst (allocGC s allocID req w) = inr tt /\
     fst (allocStats s allocID req w)
       = inr (match reply with AllocStatsResponse st => st | _ => None end) /\
     fst (ClientGCRequest s req w) = inr tt) /\
  (forall e, r = inl e -> IsErrNoNodeConn e = false -> IsErrUnknownAllocation e = false ->
     (forall tn, decode_restart_body s (Body req) = inr tn ->
        fst (allocRestart s allocID req w) = inl e) /\
     ((Method req = "POST"%string \/ Method req = "PUT"%string) ->
      forall b, decode_signal_body s (Body req) = inr b ->
        fst (allocSignal s allocID req w) = inl e) /\
     fst (allocGC s allocID req w) = inl e /\
     fst (allocStats s allocID req w) = inl e /\
     fst (ClientGCRequest s req w) = inl e).
Proof.
  assert (Ha : forall op, exists t m, route (rpcHandlerForAlloc s allocID) op = Some (t, m)).
  { intros op. destruct (route (rpcHandlerForAlloc s allocID) op) as [[t m]|] eqn:E.
    - eauto.
    - apply route_none in E. contradiction. }
  assert (Hn : forall op, exists t m,
             route (rpcHandlerForNode s (query_get (Query req) "node_id")) op = Some (t, m)).
  { intros op. destruct (route _ op) as [[t m]|] eqn:E.
    - eauto.
    - apply route_none in E. contradiction. }
  split.
  - intros reply ->. split; [|split; [|split; [|split]]].
    + intros tn Hb. unfold allocRestart. rewrite Hb. step.
      destruct (Ha "Restart"%string) as (t & m & ->). simpl. rewrite Hrpc. reflexivity.
    + intros Hm b Hb. unfold allocSignal.
      destruct Hm as [Hm|Hm]; rewrite Hm; simpl; rewrite Hb; step;
        destruct (Ha "Signal"%string) as (t & m & ->); simpl; rewrite Hrpc; reflexivity.
    + unfold allocGC. step.
      destruct (Ha "GarbageCollect"%string) as (t & m & ->). simpl. rewrite Hrpc. reflexivity.
    + unfold allocStats. step.
      destruct (Ha "Stats"%string) as (t & m & ->). simpl. rewrite Hrpc. reflexivity.
    + unfold ClientGCRequest. step.
      destruct (Hn "GarbageCollectAll"%string) as (t & m & ->). simpl. rewrite Hrpc.
      reflexivity.
  - intros e -> H1 H2. split; [|split; [|split; [|split]]].
    + intros tn Hb. unfold allocRestart. rewrite Hb. step.
      destruct (Ha "Restart"%string) as (t & m & ->). simpl. rewrite Hrpc. simpl.
      rewrite H1, H2. reflexivity.
    + intros Hm b Hb. unfold allocSignal.
      destruct Hm as [Hm|Hm]; rewrite Hm; simpl; rewrite Hb; step;
        destruct (Ha "Signal"%string) as (t & m & ->); simpl; rewrite Hrpc; simpl;
        rewrite H1, H2; reflexivity.
    + unfold allocGC. step.
      destruct (Ha "GarbageCollect"%string) as (t & m & ->). simpl. rewrite Hrpc. simpl.
      rewrite H1, H2. reflexivity.
    + unfold allocStats. step.
      destruct (Ha "Stats"%string) as (t & m & ->). simpl. rewrite Hrpc. simpl.
      rewrite H1, H2. reflexivity.
    + unfold ClientGCRequest. step.
      destruct (Hn "GarbageCollectAll"%string) as (t & m & ->). simpl. rewrite Hrpc. simpl.
      rewrite H1. reflexivity.
Qed.

(** ** allocSnapshot success *)

(** With a valid token, a filesystem handle and a snapshot that streams
    without error, allocSnapshot returns nil and makes exactly three calls,
    in this order: token validation, filesystem lookup, snapshot. *)
Theorem allocSnapshot_success (s : Agent) (allocID : string) (req : Request) (w : World)
    (h : nat)
    (Htoken : ValidateMigrateToken s allocID (parseToken s req) = true)
    (Hfs : GetAllocFS s allocID = inr h)
    (Hsnap : Snapshot s h = None) :
  allocSnapshot s allocID req w
  = (inr tt, mkWorld (allocs w) (jobs w) (next_ptr w)
               (trace w ++ [EvValidateMigrateToken allocID (parseToken s req);
                            EvGetAllocFS allocID; EvSnapshot])).
Proof.
  unfold allocSnapshot. step. rewrite Htoken. simpl. rewrite Hfs. simpl. rewrite Hsnap.
  unfold logged. simpl. rewrite <- !app_assoc. reflexivity.
Qed.

(** ** Witnesses of the further properties *)

Lemma ClientAllocRequest_routes_witness :
  Path (Demo.req "PUT" "/v1/client/allocation/abc/gc" EmptyString)
    = ("/v1/client/allocation/" ++ "abc" ++ "/" ++ "gc")%string /\
  no_char "/"%char "abc" = true /\ no_char "/"%char "gc" = true /\
  ClientAllocRequest (Demo.agent (true, false, false) Demo.ok_rpc true)
    (Demo.req "PUT" "/v1/client/allocation/abc/gc" EmptyString) Demo.w0
  = lift (fun _ => ResNone)
      (allocGC (Demo.agent (true, false, false) Demo.ok_rpc true) "abc"
         (Demo.req "PUT" "/v1/client/allocation/abc/gc" EmptyString)) Demo.w0.
Proof.
  split; [reflexivity|split; [reflexivity|split; [reflexivity|]]].
  apply (ClientAllocRequest_routes (Demo.agent (true, false, false) Demo.ok_rpc true)
           (Demo.req "PUT" "/v1/client/allocation/abc/gc" EmptyString) Demo.w0
           "abc" "gc"); reflexivity.
Defined.

Lemma ClientAllocRequest_bad_segments_witness :
  length (Split "/"%char (TrimPrefix "/v1/client/allocation/abc/gc/x" "/v1/client/allocation/"))
    = 3%nat /\
  ClientAllocRequest (Demo.agent (true, false, false) Demo.ok_rpc true)
    (Demo.req "PUT" "/v1/client/allocation/abc/gc/x" EmptyString) Demo.w0
  = (inl (CodedError 404 resourceNotFoundErr), Demo.w0).
Proof.
  split; [vm_compute; reflexivity|].
  apply ClientAllocRequest_bad_segments. vm_compute. discriminate.
Defined.

Lemma AllocSpecificRequest_routes_witness :
  no_char "/"%char "abc" = true /\
  AllocSpecificRequest (Demo.agent (true, false, false) Demo.ok_rpc true)
    (Demo.req "POST" "/v1/allocation/abc/stop" EmptyString) Demo.w0
  = lift' ResStop (allocStop (Demo.agent (true, false, false) Demo.ok_rpc true) "abc"
                     (Demo.req "POST" "/v1/allocation/abc/stop" EmptyString)) Demo.w0.
Proof.
  split; [reflexivity|].
  apply (proj1 (proj2 (AllocSpecificRequest_routes
                         (Demo.agent (true, false, false) Demo.ok_rpc true)
                         (Demo.req "POST" "/v1/allocation/abc/stop" EmptyString) Demo.w0
                         "abc" eq_refl)) "stop"%string); reflexivity.
Defined.

Lemma allocGet_decode_failure_witness :
  Payload (mkJob [Byte.x01]) <> [] /\
  allocGet (Demo.without_snappy (Demo.agent (true, false, false) Demo.get_rpc true)) "abc"
    (Demo.req "GET" "/v1/allocation/abc" EmptyString) Demo.w_payload
  = (inl (ErrGeneric "snappy: corrupt input"),
     mkWorld (allocs Demo.w_payload) (jobs Demo.w_payload) (next_ptr Demo.w_payload)
       [EvRPC AgentRPC "Alloc.GetAlloc" (ArgsAllocSpecific "abc"); EvSnappyDecode]).
Proof.
  split; [discriminate|].
  apply (allocGet_decode_failure
           (Demo.without_snappy (Demo.agent (true, false, false) Demo.get_rpc true))
           "abc" (Demo.req "GET" "/v1/allocation/abc" EmptyString) Demo.w_payload
           1%positive 2%positive (mkAllocation "abc" (Some 2%positive) [Demo.ev_start])
           (mkJob [Byte.x01])); try reflexivity.
  discriminate.
Defined.

Lemma rpc_results_pass_through_witness :
  (false, false, true) <> (false, false, false) /\
  fst (allocGC (Demo.agent (false, false, true)
                  (Demo.err_rpc (RPCError OtherRPCErr "rpc error: boom")) true) "abc"
         (Demo.req "PUT" "/v1/client/allocation/abc/gc" EmptyString) Demo.w0)
  = inl (RPCError OtherRPCErr "rpc error: boom").
Proof.
  split; [discriminate|].
  apply (proj2 (rpc_results_pass_through
                  (Demo.agent (false, false, true)
                     (Demo.err_rpc (RPCError OtherRPCErr "rpc error: boom")) true) "abc"
                  (Demo.req "PUT" "/v1/client/allocation/abc/gc" EmptyString) Demo.w0
                  (inl (RPCError OtherRPCErr "rpc error: boom"))
                  ltac:(discriminate) ltac:(discriminate) (fun _ _ _ => eq_refl))
                (RPCError OtherRPCErr "rpc error: boom") eq_refl eq_refl eq_refl).
Defined.

Lemma allocSnapshot_success_witness :
  ValidateMigrateToken (Demo.agent (true, false, false) Demo.ok_rpc true) "abc" EmptyString
    = true /\
  allocSnapshot (Demo.agent (true, false, false) Demo.ok_rpc true) "abc"
    (Demo.req "GET" "/v1/client/allocation/abc/snapshot" EmptyString) Demo.w0
  = (inr tt, mkWorld ∅ ∅ 1 [EvValidateMigrateToken "abc" EmptyString;
                            EvGetAllocFS "abc"; EvSnapshot]).
Proof.
  split; [reflexivity|].
  apply (allocSnapshot_success (Demo.agent (true, false, false) Demo.ok_rpc true) "abc"
           (Demo.req "GET" "/v1/client/allocation/abc/snapshot" EmptyString) Demo.w0 0%nat);
    reflexivity.
Defined.
